(** * Stock synchronisation Odoo -> WooCommerce: a model of [sync.py]

    The development embeds the class [OdooWooCommerceStockSync] of
    [src/sync.py] and the script's entry point.  Python values are an
    inductive type, the two remote systems are an interface of two calls
    threaded through an explicit world, and every method is a computation
    in a small monad that carries the world, collects what the method
    prints and sends, and either returns or raises. *)

From Stdlib Require Import ZArith List String Ascii Bool Lia QArith.
From Stdlib Require Import SpecFloat DecimalString DecimalPos DecimalZ.
Import ListNotations.

Set Warnings "-register-all".
Local Open Scope string_scope.
Local Open Scope Z_scope.

(** ** Python values *)

(** What [json.load] and the XML-RPC unmarshaller hand to the program:
    [None], booleans, integers, doubles, strings, lists and dictionaries
    with string keys.  A double is a [spec_float]: sign, mantissa and
    binary exponent, or a zero, an infinity, a NaN.  A dictionary is an
    association list in insertion order. *)
Inductive value : Type :=
| VNone
| VBool (b : bool)
| VInt (z : Z)
| VFloat (f : spec_float)
| VStr (s : string)
| VList (l : list value)
| VDict (d : list (string * value)).

(** The exception classes the program can meet; all derive from
    [Exception].  [Raised_MissingVars] and [Raised_InvalidCredentials] are
    the two [raise Exception(...)] of [connect_odoo]; [TransportError]
    stands for whatever the XML-RPC or HTTP transport raises
    ([OSError], [xmlrpc.client.Fault], [requests.RequestException] ...);
    [HTTPError] is [requests.exceptions.HTTPError] with the status code of
    its response. *)
Inductive exn : Type :=
| TypeError
| ValueError
| OverflowError
| KeyError
| IndexError
| AttributeError
| TransportError
| HTTPError (status : Z)
| Raised_MissingVars (missing : list string)
| Raised_InvalidCredentials.

Inductive outcome (A : Type) : Type :=
| Ret (a : A)
| Raise (e : exn).
Arguments Ret {A} a.
Arguments Raise {A} e.

(** ** Builtins *)

(** [bool(v)], the test behind [if v] and [not v]. *)
Definition truthy (v : value) : bool :=
  match v with
  | VNone => false
  | VBool b => b
  | VInt z => negb (z =? 0)
  | VFloat (S754_zero _) => false
  | VFloat _ => true
  | VStr s => negb (s =? "")%string
  | VList l => match l with [] => false | _ => true end
  | VDict d => match d with [] => false | _ => true end
  end.

(** Truth of an optional string ([os.getenv] gives [None] or a string). *)
Definition truthy_opt (o : option string) : bool :=
  match o with
  | None => false
  | Some s => negb (s =? "")%string
  end.

(** [a or b] on optional strings. *)
Definition py_or (a b : option string) : option string :=
  if truthy_opt a then a else b.

(** Whitespace as [str.strip] and [int] see it, on ASCII: space, the
    controls 9 to 13 and the separators 28 to 31. *)
Definition is_space (c : ascii) : bool :=
  let n := Z.of_nat (nat_of_ascii c) in
  (n =? 32) || ((9 <=? n) && (n <=? 13)) || ((28 <=? n) && (n <=? 31)).

Fixpoint lstrip (l : list ascii) : list ascii :=
  match l with
  | c :: r => if is_space c then lstrip r else l
  | [] => []
  end.

Definition strip_chars (l : list ascii) : list ascii :=
  rev (lstrip (rev (lstrip l))).

(** [s.strip()] *)
Definition strip (s : string) : string :=
  string_of_list_ascii (strip_chars (list_ascii_of_string s)).

Definition digit_of (c : ascii) : option Z :=
  let n := Z.of_nat (nat_of_ascii c) in
  if (48 <=? n) && (n <=? 57) then Some (n - 48) else None.

(** The digits of a decimal literal: at least one digit, single
    underscores allowed between two digits only. *)
Fixpoint digits (after_digit : bool) (acc : Z) (l : list ascii) : option Z :=
  match l with
  | [] => if after_digit then Some acc else None
  | c :: r =>
      match digit_of c with
      | Some d => digits true (10 * acc + d) r
      | None =>
          if (Ascii.eqb c "_"%char) && after_digit then digits false acc r
          else None
      end
  end.

(** [int(s)] for a string, base ten: surrounding whitespace, an optional
    sign, then the digits.  [None] is [ValueError].  Strings are byte
    strings here, so the decimal digits outside ASCII that Python also
    accepts are not digits of the model; nor does the model bound the
    number of digits, which recent interpreters limit to 4300. *)
Definition int_of_string (s : string) : option Z :=
  match strip_chars (list_ascii_of_string s) with
  | "+"%char :: r => digits false 0 r
  | "-"%char :: r => option_map Z.opp (digits false 0 r)
  | l => digits false 0 l
  end.

(** [int(f)] for a double: the integral part, towards zero, computed on
    the mantissa as [float.__trunc__] does. *)
Definition int_of_float (f : spec_float) : outcome Z :=
  match f with
  | S754_zero _ => Ret 0
  | S754_infinity _ => Raise OverflowError
  | S754_nan => Raise ValueError
  | S754_finite neg m e =>
      let a := if 0 <=? e then Z.shiftl (Zpos m) e
               else Z.shiftr (Zpos m) (- e) in
      Ret (if neg then - a else a)
  end.

(** [int(v)] *)
Definition py_int (v : value) : outcome Z :=
  match v with
  | VNone => Raise TypeError
  | VBool b => Ret (if b then 1 else 0)
  | VInt z => Ret z
  | VFloat f => int_of_float f
  | VStr s => match int_of_string s with
              | Some z => Ret z
              | None => Raise ValueError
              end
  | VList _ => Raise TypeError
  | VDict _ => Raise TypeError
  end.

(** [v > 0] *)
Definition py_gt_zero (v : value) : outcome bool :=
  match v with
  | VBool b => Ret b
  | VInt z => Ret (0 <? z)
  | VFloat (S754_finite false _ _) => Ret true
  | VFloat (S754_infinity false) => Ret true
  | VFloat _ => Ret false
  | VNone | VStr _ | VList _ | VDict _ => Raise TypeError
  end.

(** [len(v)] *)
Definition py_len (v : value) : outcome nat :=
  match v with
  | VStr s => Ret (String.length s)
  | VList l => Ret (List.length l)
  | VDict d => Ret (List.length d)
  | VNone | VBool _ | VInt _ | VFloat _ => Raise TypeError
  end.

(** [v.items()], defined on dictionaries only. *)
Definition py_items (v : value) : outcome (list (string * value)) :=
  match v with
  | VDict d => Ret d
  | _ => Raise AttributeError
  end.

(** Dictionaries as association lists in insertion order. *)
Fixpoint dict_lookup {A : Type} (k : string) (d : list (string * A)) : option A :=
  match d with
  | [] => None
  | (k', v) :: r => if (k' =? k)%string then Some v else dict_lookup k r
  end.

(** [d[k] = v]: a present key keeps its place, a new key goes last. *)
Fixpoint dict_set {A : Type} (k : string) (v : A) (d : list (string * A))
  : list (string * A) :=
  match d with
  | [] => [(k, v)]
  | (k', v') :: r =>
      if (k' =? k)%string then (k', v) :: r else (k', v') :: dict_set k v r
  end.

(** [v[k]] with a string key. *)
Definition py_getitem (v : value) (k : string) : outcome value :=
  match v with
  | VDict d => match dict_lookup k d with
               | Some x => Ret x
               | None => Raise KeyError
               end
  | _ => Raise TypeError
  end.

(** [v.get(k, default)] *)
Definition py_get (v : value) (k : string) (default : value) : outcome value :=
  match v with
  | VDict d => match dict_lookup k d with
               | Some x => Ret x
               | None => Ret default
               end
  | _ => Raise AttributeError
  end.

(** [v[0]] *)
Definition py_first (v : value) : outcome value :=
  match v with
  | VList (x :: _) => Ret x
  | VList [] => Raise IndexError
  | VStr (String c _) => Ret (VStr (String c EmptyString))
  | VStr EmptyString => Raise IndexError
  | VDict _ => Raise KeyError
  | VNone | VBool _ | VInt _ | VFloat _ => Raise TypeError
  end.

(** An optional string as a Python value, and as an f-string prints it. *)
Definition of_opt (o : option string) : value :=
  match o with
  | Some s => VStr s
  | None => VNone
  end.

Definition fmt_opt (o : option string) : string :=
  match o with
  | Some s => s
  | None => "None"
  end.

(** [str(z)] for an integer. *)
Definition str_of_Z (z : Z) : string := NilZero.string_of_int (Z.to_int z).

(** ** Requests, messages and the remote systems *)

(** One XML-RPC call: the URL of the [ServerProxy], the method and its
    positional parameters. *)
Record rpc_call : Type := mk_rpc {
  rpc_url : string;
  rpc_method : string;
  rpc_params : list value
}.

Inductive status_flag : Type := instock | outofstock.

(** The JSON body of the update (lines 162-166). *)
Record payload : Type := mk_payload {
  stock_quantity : Z;
  manage_stock : bool;
  stock_status : status_flag
}.

(** One [requests.put]: [put_credentials] is the text whose base64
    encoding follows [Basic] in the [Authorization] header. *)
Record put_request : Type := mk_put {
  put_url : string;
  put_credentials : string;
  put_json : payload;
  put_timeout : Z
}.

(** The lines the program prints, one constructor per [print], with the
    values the line interpolates. *)
Inductive message : Type :=
| InvalidLocationId (s : string)
| SyncStarted
| DateLine
| LoadedMappingFor (n : nat)
| LoadedMappingFile
| MappingFileNotFound
| LoadMappingFailed
| Connecting
| ShowUrl (o : option string)
| ShowDb (o : option string)
| ShowUser (o : option string)
| OdooVersion (v : value)
| AttemptingAuth
| AuthResult (uid : value)
| ConnectedAs (uid : value)
| ConnectionFailed (e : exn)
| ProductNotFound (barcode : string)
| FetchFailed (barcode : string) (e : exn)
| FetchingStock (n : nat)
| FetchOk (name : value) (barcode : string) (qty : value) (wc_id : value)
| Skipped (barcode : string)
| PushOk (product_id : Z) (name qty : value)
| PushNotFound (product_id : Z)
| PushHttpError (product_id : Z) (status : Z)
| PushFailed (product_id : Z) (e : exn)
| StartingSync
| NoProducts
| UpdatingStock
| ProductLine (name : value) (barcode : string) (qty : value) (wc_id : Z)
| SyncCompleted
| UpdatedCount (n : nat)
| ErrorsCount (n : nat)
| SyncFailed (e : exn)
| CriticalError (e : exn)
| Traceback (e : exn).

(** What a run does that the outside can observe, in order. *)
Inductive event : Type :=
| Printed (m : message)
| Called (c : rpc_call)
| Sent (r : put_request).

(** The two remote systems.  [Net] is the state of everything outside the
    process; a call answers or raises, and moves that state.  [http_put]
    answers the status code of the response. *)
Record remote (Net : Type) : Type := mk_remote {
  xmlrpc : rpc_call -> Net -> outcome value * Net;
  http_put : put_request -> Net -> outcome Z * Net
}.
Arguments xmlrpc {Net} _ _ _.
Arguments http_put {Net} _ _ _.

(** The mapping file as [load_product_mapping] finds it: absent, present
    but failing in [open] or [json.load], or parsed. *)
Inductive file_state : Type :=
| Absent
| Corrupt
| Parsed (v : value).

(** ** The monad of methods *)

Record result (Net A : Type) : Type := mk_result {
  res : outcome A;
  net_after : Net;
  emitted : list event
}.
Arguments mk_result {Net A} _ _ _.
Arguments res {Net A} _.
Arguments net_after {Net A} _.
Arguments emitted {Net A} _.

Definition M (Net A : Type) : Type := Net -> result Net A.

Definition ret {Net A : Type} (a : A) : M Net A :=
  fun n => mk_result (Ret a) n [].

Definition raise {Net A : Type} (e : exn) : M Net A :=
  fun n => mk_result (Raise e) n [].

Definition bind {Net A B : Type} (m : M Net A) (k : A -> M Net B) : M Net B :=
  fun n =>
    match m n with
    | mk_result (Ret a) n1 ev1 =>
        match k a n1 with
        | mk_result o n2 ev2 => mk_result o n2 (ev1 ++ ev2)
        end
    | mk_result (Raise e) n1 ev1 => mk_result (Raise e) n1 ev1
    end.

(** [try: m  except Exception as e: h e] *)
Definition try_except {Net A : Type} (m : M Net A) (h : exn -> M Net A)
  : M Net A :=
  fun n =>
    match m n with
    | mk_result (Ret a) n1 ev1 => mk_result (Ret a) n1 ev1
    | mk_result (Raise e) n1 ev1 =>
        match h e n1 with
        | mk_result o n2 ev2 => mk_result o n2 (ev1 ++ ev2)
        end
    end.

Definition lift {Net A : Type} (o : outcome A) : M Net A :=
  fun n => mk_result o n [].

Definition print {Net : Type} (m : message) : M Net unit :=
  fun n => mk_result (Ret tt) n [Printed m].

Declare Scope monad_scope.
Delimit Scope monad_scope with monad.
Notation "x <- c1 ;; c2" := (bind c1 (fun x => c2))
  (at level 61, c1 at next level, right associativity) : monad_scope.
Notation "' pat <- c1 ;; c2" :=
  (bind c1 (fun x => match x with pat => c2 end))
  (at level 61, pat pattern, c1 at next level, right associativity)
  : monad_scope.
Notation "c1 ;; c2" := (bind c1 (fun _ => c2))
  (at level 61, right associativity) : monad_scope.
Local Open Scope monad_scope.

(** A call through a [ServerProxy] and a [requests.put]: the request is
    recorded, then the remote answers. *)
Definition call_rpc {Net : Type} (R : remote Net) (c : rpc_call) : M Net value :=
  fun n => let (o, n') := xmlrpc R c n in mk_result o n' [Called c].

Definition send_put {Net : Type} (R : remote Net) (r : put_request) : M Net Z :=
  fun n => let (o, n') := http_put R r n in mk_result o n' [Sent r].

(** ** The class [OdooWooCommerceStockSync] *)

(** The process environment, as [os.getenv] reads it. *)
Definition environ : Type := string -> option string.

(** The instance fields.  [odoo_models] holds the URL of the object
    endpoint's [ServerProxy] once connected. *)
Record Sync : Type := mk_sync {
  wc_url : option string;
  wc_consumer_key : option string;
  wc_consumer_secret : option string;
  odoo_url : option string;
  odoo_db : option string;
  odoo_username : option string;
  odoo_password : option string;
  odoo_location_id : Z;
  product_mapping : value;
  odoo_uid : value;
  odoo_models : option string
}.

(** The dictionary [get_product_stock_by_barcode] returns. *)
Record stock_info : Type := mk_info {
  info_id : value;
  info_name : value;
  info_barcode : value;
  qty_available : value
}.

(** A value of [products_stock]. *)
Record stock_entry : Type := mk_entry {
  name : value;
  qty : value;
  wc_id : Z
}.

(** How the process ends: [exit(0 if success else 1)], or an exception
    nobody caught, which the interpreter turns into a traceback and
    status 1. *)
Definition exit_code {Net : Type} (r : result Net bool) : Z :=
  match res r with
  | Ret true => 0
  | Ret false => 1
  | Raise _ => 1
  end.

Definition crashed {Net : Type} (r : result Net bool) : bool :=
  match res r with
  | Ret _ => false
  | Raise _ => true
  end.

Section Methods.

Context {Net : Type} (R : remote Net).

(** Lines 49-63. *)
Definition load_product_mapping (file : file_state) : M Net value :=
  try_except
    (match file with
     | Parsed mapping => print LoadedMappingFile ;; ret mapping
     | Absent => print MappingFileNotFound ;; ret (VDict [])
     | Corrupt => raise ValueError
     end)
    (fun e => print LoadMappingFailed ;; ret (VDict [])).

(** Line 29: [(os.getenv('ODOO_LOCATION_ID', '8') or '8').strip()]. *)
Definition location_id_str (env : environ) : string :=
  let s := match env "ODOO_LOCATION_ID" with
           | Some s => s
           | None => "8"
           end in
  strip (if (s =? "")%string then "8" else s).

(** Lines 16-46. *)
Definition init (env : environ) (file : file_state) : M Net Sync :=
  let s := location_id_str env in
  location_id <- match int_of_string s with
                 | Some z => ret z
                 | None => print (InvalidLocationId s) ;; ret 8
                 end ;;
  mapping <- load_product_mapping file ;;
  print SyncStarted ;;
  print DateLine ;;
  n <- lift (py_len mapping) ;;
  print (LoadedMappingFor n) ;;
  ret {| wc_url := env "WC_URL";
         wc_consumer_key := env "WC_CONSUMER_KEY";
         wc_consumer_secret := env "WC_CONSUMER_SECRET";
         odoo_url := env "ODOO_URL";
         odoo_db := env "ODOO_DB";
         odoo_username := py_or (env "ODOO_USERNAME") (env "ODOO_USER");
         odoo_password := env "ODOO_PASSWORD";
         odoo_location_id := location_id;
         product_mapping := mapping;
         odoo_uid := VNone;
         odoo_models := None |}.

(** Lines 73-77. *)
Definition missing_vars (self : Sync) : list string :=
  ((if truthy_opt (odoo_url self) then [] else ["ODOO_URL"])
   ++ (if truthy_opt (odoo_db self) then [] else ["ODOO_DB"])
   ++ (if truthy_opt (odoo_username self) then []
       else ["ODOO_USERNAME/ODOO_USER"])
   ++ (if truthy_opt (odoo_password self) then [] else ["ODOO_PASSWORD"]))%list.

Definition common_url (self : Sync) : string :=
  (fmt_opt (odoo_url self) ++ "/xmlrpc/2/common")%string.

Definition object_url (self : Sync) : string :=
  (fmt_opt (odoo_url self) ++ "/xmlrpc/2/object")%string.

Definition version_call (self : Sync) : rpc_call :=
  mk_rpc (common_url self) "version" [].

Definition authenticate_call (self : Sync) : rpc_call :=
  mk_rpc (common_url self) "authenticate"
    [of_opt (odoo_db self); of_opt (odoo_username self);
     of_opt (odoo_password self); VDict []].

Definition connected (self : Sync) (uid : value) : Sync :=
  {| wc_url := wc_url self;
     wc_consumer_key := wc_consumer_key self;
     wc_consumer_secret := wc_consumer_secret self;
     odoo_url := odoo_url self;
     odoo_db := odoo_db self;
     odoo_username := odoo_username self;
     odoo_password := odoo_password self;
     odoo_location_id := odoo_location_id self;
     product_mapping := product_mapping self;
     odoo_uid := uid;
     odoo_models := Some (object_url self) |}.

(** Lines 66-98.  The method returns its boolean and the instance as the
    method leaves it.  A [ServerProxy] that cannot be built for the URL
    is a call that raises. *)
Definition connect_odoo (self : Sync) : M Net (bool * Sync) :=
  try_except
    (print Connecting ;;
     print (ShowUrl (odoo_url self)) ;;
     print (ShowDb (odoo_db self)) ;;
     print (ShowUser (odoo_username self)) ;;
     match missing_vars self with
     | _ :: _ => raise (Raised_MissingVars (missing_vars self))
     | [] =>
         version_info <- call_rpc R (version_call self) ;;
         server_version <-
           lift (py_get version_info "server_version" (VStr "unknown")) ;;
         print (OdooVersion server_version) ;;
         print AttemptingAuth ;;
         uid <- call_rpc R (authenticate_call self) ;;
         print (AuthResult uid) ;;
         if negb (truthy uid) then raise Raised_InvalidCredentials
         else
           print (ConnectedAs uid) ;;
           ret (true, connected self uid)
     end)
    (fun e => print (ConnectionFailed e) ;; ret (false, self)).

(** Lines 106-111: the [search_read] sent for a barcode. *)
Definition search_read_call (self : Sync) (url barcode : string) : rpc_call :=
  mk_rpc url "execute_kw"
    [of_opt (odoo_db self); odoo_uid self; of_opt (odoo_password self);
     VStr "product.product"; VStr "search_read";
     VList [VList [VList [VStr "barcode"; VStr "="; VStr barcode]]];
     VDict [("fields",
             VList [VStr "id"; VStr "name"; VStr "barcode";
                    VStr "qty_available"]);
            ("limit", VInt 1)]].

(** Lines 100-127. *)
Definition get_product_stock_by_barcode (self : Sync) (barcode : string)
  : M Net (option stock_info) :=
  try_except
    (products <- match odoo_models self with
                 | Some url => call_rpc R (search_read_call self url barcode)
                 | None => raise AttributeError
                 end ;;
     if truthy products then
       product <- lift (py_first products) ;;
       i <- lift (py_getitem product "id") ;;
       n <- lift (py_getitem product "name") ;;
       b <- lift (py_getitem product "barcode") ;;
       q <- lift (py_get product "qty_available" (VInt 0)) ;;
       ret (Some (mk_info i n b q))
     else
       print (ProductNotFound barcode) ;;
       ret None)
    (fun e => print (FetchFailed barcode e) ;; ret None).

(** Lines 138-148: the loop over [self.product_mapping.items()], with
    [products_stock] as it stands. *)
Fixpoint fetch_loop (self : Sync) (items : list (string * value))
    (products_stock : list (string * stock_entry))
  : M Net (list (string * stock_entry)) :=
  match items with
  | [] => ret products_stock
  | (barcode, wc) :: rest =>
      product <- get_product_stock_by_barcode self barcode ;;
      match product with
      | Some p =>
          i <- lift (py_int wc) ;;
          print (FetchOk (info_name p) barcode (qty_available p) wc) ;;
          fetch_loop self rest
            (dict_set barcode (mk_entry (info_name p) (qty_available p) i)
               products_stock)
      | None =>
          print (Skipped barcode) ;;
          fetch_loop self rest products_stock
      end
  end.

(** Lines 129-150. *)
Definition get_all_products_stock (self : Sync)
  : M Net (list (string * stock_entry)) :=
  n <- lift (py_len (product_mapping self)) ;;
  print (FetchingStock n) ;;
  items <- lift (py_items (product_mapping self)) ;;
  fetch_loop self items [].

(** Lines 162-166. *)
Definition build_payload (quantity : value) : outcome payload :=
  match py_int quantity with
  | Raise e => Raise e
  | Ret q =>
      match py_gt_zero quantity with
      | Raise e => Raise e
      | Ret positive => Ret (mk_payload q true
                               (if positive then instock else outofstock))
      end
  end.

(** [response.raise_for_status()] *)
Definition raise_for_status (status : Z) : outcome unit :=
  if (400 <=? status) && (status <? 600) then Raise (HTTPError status)
  else Ret tt.

Definition product_url (self : Sync) (product_id : Z) : string :=
  (fmt_opt (wc_url self) ++ "/wp-json/wc/v3/products/"
   ++ str_of_Z product_id)%string.

Definition credentials (self : Sync) : string :=
  (fmt_opt (wc_consumer_key self) ++ ":"
   ++ fmt_opt (wc_consumer_secret self))%string.

(** Lines 153-182. *)
Definition update_woocommerce_stock (self : Sync) (product_id : Z)
    (quantity product_name : value) : M Net bool :=
  try_except
    (body <- lift (build_payload quantity) ;;
     status <- send_put R (mk_put (product_url self product_id)
                             (credentials self) body 20) ;;
     lift (raise_for_status status) ;;
     print (PushOk product_id product_name quantity) ;;
     ret true)
    (fun e =>
       match e with
       | HTTPError status =>
           (if status =? 404 then print (PushNotFound product_id)
            else print (PushHttpError product_id status)) ;;
           ret false
       | _ => print (PushFailed product_id e) ;; ret false
       end).

(** Lines 205-215: the loop over [products_stock.items()] with the two
    counters. *)
Fixpoint push_loop (self : Sync) (items : list (string * stock_entry))
    (total_updated total_errors : nat) : M Net (nat * nat) :=
  match items with
  | [] => ret (total_updated, total_errors)
  | (barcode, data) :: rest =>
      print (ProductLine (name data) barcode (qty data) (wc_id data)) ;;
      ok <- update_woocommerce_stock self (wc_id data) (qty data) (name data) ;;
      if ok then push_loop self rest (S total_updated) total_errors
      else push_loop self rest total_updated (S total_errors)
  end.

(** Lines 185-228. *)
Definition sync_stock (self : Sync) : M Net bool :=
  try_except
    (print StartingSync ;;
     products_stock <- get_all_products_stock self ;;
     match products_stock with
     | [] => print NoProducts ;; ret false
     | _ :: _ =>
         print UpdatingStock ;;
         ' (total_updated, total_errors) <-
           push_loop self products_stock 0%nat 0%nat ;;
         print SyncCompleted ;;
         print (UpdatedCount total_updated) ;;
         (if (0 <? total_errors)%nat then print (ErrorsCount total_errors)
          else ret tt) ;;
         ret true
     end)
    (fun e => print (SyncFailed e) ;; print (Traceback e) ;; ret false).

(** Lines 231-243. *)
Definition run (self : Sync) : M Net bool :=
  try_except
    (' (ok, self') <- connect_odoo self ;;
     if negb ok then ret false else sync_stock self')
    (fun e => print (CriticalError e) ;; print (Traceback e) ;; ret false).

(** Lines 246-249, up to the call of [exit]. *)
Definition main (env : environ) (file : file_state) : M Net bool :=
  sync <- init env file ;;
  run sync.

End Methods.

(** ** Reading a run *)

(** The requests a run sent, the calls it made and what it printed about
    each mapping entry and each push, in order. *)
Definition sent (l : list event) : list put_request :=
  flat_map (fun e => match e with Sent r => [r] | _ => [] end) l.

Definition called (l : list event) : list rpc_call :=
  flat_map (fun e => match e with Called c => [c] | _ => [] end) l.

(** One pair per mapping entry the fetch loop went through: the barcode,
    and whether the entry was kept ([OK:]) or skipped ([SKIPPED:]). *)
Definition fetch_report (l : list event) : list (string * bool) :=
  flat_map (fun e => match e with
                     | Printed (FetchOk _ b _ _) => [(b, true)]
                     | Printed (Skipped b) => [(b, false)]
                     | _ => []
                     end) l.

(** The items the push loop took up ([Product: ...]). *)
Definition push_lines (l : list event) : list (string * stock_entry) :=
  flat_map (fun e => match e with
                     | Printed (ProductLine n b q i) => [(b, mk_entry n q i)]
                     | _ => []
                     end) l.

(** The pushes reported as done, and those reported as failed (404, other
    HTTP status, anything else). *)
Definition push_successes (l : list event) : list Z :=
  flat_map (fun e => match e with
                     | Printed (PushOk i _ _) => [i]
                     | _ => []
                     end) l.

Definition push_failures (l : list event) : list Z :=
  flat_map (fun e => match e with
                     | Printed (PushNotFound i) => [i]
                     | Printed (PushHttpError i _) => [i]
                     | Printed (PushFailed i _) => [i]
                     | _ => []
                     end) l.

(** The totals of the summary ([Updated: n products], [Errors: n]). *)
Definition updated_totals (l : list event) : list nat :=
  flat_map (fun e => match e with
                     | Printed (UpdatedCount n) => [n]
                     | _ => []
                     end) l.

Definition error_totals (l : list event) : list nat :=
  flat_map (fun e => match e with
                     | Printed (ErrorsCount n) => [n]
                     | _ => []
                     end) l.

(** Events that tell of no push: no request, no line of the push loop,
    no total. *)
Definition push_silent (l : list event) : Prop :=
  sent l = [] /\ push_lines l = [] /\ push_successes l = [] /\
  push_failures l = [] /\ updated_totals l = [] /\ error_totals l = [].

(** The request of a push, when the quantity makes a payload. *)
Definition put_of (self : Sync) (bd : string * stock_entry) : list put_request :=
  match build_payload (qty (snd bd)) with
  | Ret body => [mk_put (product_url self (wc_id (snd bd)))
                   (credentials self) body 20]
  | Raise _ => []
  end.

(** The instance with another stock location configured. *)
Definition with_location (self : Sync) (location : Z) : Sync :=
  {| wc_url := wc_url self;
     wc_consumer_key := wc_consumer_key self;
     wc_consumer_secret := wc_consumer_secret self;
     odoo_url := odoo_url self;
     odoo_db := odoo_db self;
     odoo_username := odoo_username self;
     odoo_password := odoo_password self;
     odoo_location_id := location;
     product_mapping := product_mapping self;
     odoo_uid := odoo_uid self;
     odoo_models := odoo_models self |}.

(** ** Quantities as numbers *)

(** The rational a double denotes; infinities and NaN denote none. *)
Definition float_value (f : spec_float) : option Q :=
  match f with
  | S754_zero _ => Some 0%Q
  | S754_finite neg m e =>
      let a := if 0 <=? e then inject_Z (Zpos m * 2 ^ e)
               else (Zpos m # Pos.pow 2 (Z.to_pos (- e)))%Q in
      Some (if neg then Qopp a else a)
  | S754_infinity _ => None
  | S754_nan => None
  end.

(** The number a Python value is, for the numeric types. *)
Definition num_value (v : value) : option Q :=
  match v with
  | VBool b => Some (if b then 1%Q else 0%Q)
  | VInt z => Some (inject_Z z)
  | VFloat f => float_value f
  | _ => None
  end.

(** The integer part of a rational, towards zero. *)
Definition truncate (v : Q) : Z := Z.quot (Qnum v) (Zpos (Qden v)).

(** ** A scripted Source and Sink *)

Module Scenario.

(** The barcode a [search_read] call asks for. *)
Definition barcode_of (c : rpc_call) : string :=
  match nth 5 (rpc_params c) VNone with
  | VList [VList [VList [_; _; VStr b]]] => b
  | _ => ""
  end.

(** A remote that answers from tables and counts the requests it serves:
    what [version] and [authenticate] answer, the [search_read] answer per
    barcode (an unknown barcode finds nothing), the PUT answer per URL (an
    unknown URL is a 404). *)
Definition scripted (version auth : outcome value)
    (products : list (string * outcome value))
    (shop : list (string * outcome Z)) : remote nat :=
  {| xmlrpc := fun c n =>
       ((if (rpc_method c =? "version")%string then version
         else if (rpc_method c =? "authenticate")%string then auth
         else match dict_lookup (barcode_of c) products with
              | Some o => o
              | None => Ret (VList [])
              end), S n);
     http_put := fun r n =>
       (match dict_lookup (put_url r) shop with
        | Some o => o
        | None => Ret 404
        end, S n) |}.

Definition env_of (l : list (string * string)) : environ :=
  fun k => dict_lookup k l.

Definition good_env : environ :=
  env_of [("WC_URL", "https://shop.example");
          ("WC_CONSUMER_KEY", "ck"); ("WC_CONSUMER_SECRET", "cs");
          ("ODOO_URL", "https://erp.example"); ("ODOO_DB", "prod");
          ("ODOO_USERNAME", "bot"); ("ODOO_PASSWORD", "secret")].

Definition version_17 : outcome value :=
  Ret (VDict [("server_version", VStr "17.0")]).

(** 12.0 as a double. *)
Definition twelve : spec_float := S754_finite false 3 2.

Definition widget (q : value) : outcome value :=
  Ret (VList [VDict [("id", VInt 7); ("name", VStr "Widget");
                     ("barcode", VStr "ABC123"); ("qty_available", q)]]).

Definition gadget : outcome value :=
  Ret (VList [VDict [("id", VInt 9); ("name", VStr "Gadget");
                     ("barcode", VStr "XYZ789");
                     ("qty_available", VInt 3)]]).

(** An Odoo with two products and a shop that knows product 55 only. *)
Definition erp_and_shop : remote nat :=
  scripted version_17 (Ret (VInt 2))
    [("ABC123", widget (VFloat twelve)); ("XYZ789", gadget)]
    [("https://shop.example/wp-json/wc/v3/products/55", Ret 200)].

(** The same Odoo answering [version] with an empty dictionary. *)
Definition erp_bare_version : remote nat :=
  scripted (Ret (VDict [])) (Ret (VInt 2))
    [("ABC123", widget (VFloat twelve))]
    [("https://shop.example/wp-json/wc/v3/products/55", Ret 200)].

(** The same Odoo answering [version] with [None]. *)
Definition erp_without_version : remote nat :=
  scripted (Ret VNone) (Ret (VInt 2))
    [("ABC123", widget (VFloat twelve))]
    [("https://shop.example/wp-json/wc/v3/products/55", Ret 200)].

Definition mapping_A : value := VDict [("ABC123", VStr "55")].

Definition mapping_two : value :=
  VDict [("ABC123", VStr "55"); ("XYZ789", VInt 56)].

Definition mapping_missing : value :=
  VDict [("NOPE", VStr "54"); ("ABC123", VStr "55")].




(** An instance after a successful [connect_odoo], as [init] and
    [connect_odoo] build it from [good_env]. *)
Definition connected_sync (mapping : value) (location : Z) : Sync :=
  {| wc_url := Some "https://shop.example";
     wc_consumer_key := Some "ck";
     wc_consumer_secret := Some "cs";
     odoo_url := Some "https://erp.example";
     odoo_db := Some "prod";
     odoo_username := Some "bot";
     odoo_password := Some "secret";
     odoo_location_id := location;
     product_mapping := mapping;
     odoo_uid := VInt 2;
     odoo_models := Some "https://erp.example/xmlrpc/2/object" |}.

(** The instance [init] builds from [good_env], before connecting. *)
Definition fresh_sync (mapping : value) : Sync :=
  {| wc_url := Some "https://shop.example";
     wc_consumer_key := Some "ck";
     wc_consumer_secret := Some "cs";
     odoo_url := Some "https://erp.example";
     odoo_db := Some "prod";
     odoo_username := Some "bot";
     odoo_password := Some "secret";
     odoo_location_id := 8;
     product_mapping := mapping;
     odoo_uid := VNone;
     odoo_models := None |}.

(** The instance [init] builds from an empty environment. *)
Definition unconfigured : Sync :=
  {| wc_url := None;
     wc_consumer_key := None;
     wc_consumer_secret := None;
     odoo_url := None;
     odoo_db := None;
     odoo_username := None;
     odoo_password := None;
     odoo_location_id := 8;
     product_mapping := VDict [];
     odoo_uid := VNone;
     odoo_models := None |}.

(** An Odoo that rejects the credentials, and one that cannot be
    reached. *)
Definition erp_rejecting : remote nat :=
  scripted version_17 (Ret (VBool false)) [] [].

Definition erp_down : remote nat :=
  scripted (Raise TransportError) (Raise TransportError) [] [].

(** The records the fetch phase returns for [mapping_two]. *)
Definition fetched_two : list (string * stock_entry) :=
  [("ABC123", mk_entry (VStr "Widget") (VFloat twelve) 55);
   ("XYZ789", mk_entry (VStr "Gadget") (VInt 3) 56)].

End Scenario.

(** ** Decimal numerals and warnings *)


(** The warnings about [ODOO_LOCATION_ID] a run printed. *)
Definition location_warnings (l : list event) : list string :=
  flat_map (fun e => match e with
                     | Printed (InvalidLocationId s) => [s]
                     | _ => []
                     end) l.

(** The failures [sync_stock] reported ([ERROR: Synchronization failed]). *)
Definition sync_failures (l : list event) : list exn :=
  flat_map (fun e => match e with
                     | Printed (SyncFailed x) => [x]
                     | _ => []
                     end) l.

(** The failures [run] reported ([CRITICAL ERROR]). *)
Definition critical_errors (l : list event) : list exn :=
  flat_map (fun e => match e with
                     | Printed (CriticalError x) => [x]
                     | _ => []
                     end) l.

(** Events in which no handler of [sync_stock] or [run] speaks. *)
Definition handlers_silent (l : list event) : Prop :=
  sync_failures l = [] /\ critical_errors l = [].

(** * Properties *)

(** Running a method one step: the monad's operations unfold to matches
    on results, which reduce as far as the remote's answers are known. *)
Ltac unfold_monad :=
  unfold try_except, bind, lift, print, raise, ret, call_rpc, send_put.

Ltac run_step := cbv beta iota zeta; cbn [app res net_after emitted].

(** ** The builtins *)

Lemma pow2_pos (e : Z) : 0 <= e -> 0 < 2 ^ e.
Proof. intros H. apply Z.pow_pos_nonneg; lia. Qed.

Lemma Zpos_pow2 (e : Z) : e < 0 -> Zpos (Pos.pow 2 (Z.to_pos (- e))) = 2 ^ (- e).
Proof.
  intros H. rewrite Pos2Z.inj_pow. rewrite Z2Pos.id by lia. reflexivity.
Qed.

(** [int] of a finite double is the truncation of the number it denotes. *)
Lemma int_of_float_truncates (f : spec_float) (v : Q) :
  float_value f = Some v -> int_of_float f = Ret (truncate v).
Proof.
  destruct f as [s | s | | neg m e]; simpl; try discriminate.
  - intros H. injection H as <-. reflexivity.
  - intros H. injection H as <-. f_equal. unfold truncate.
    destruct (0 <=? e) eqn:He.
    + apply Z.leb_le in He. rewrite Z.shiftl_mul_pow2 by assumption.
      destruct neg; simpl; rewrite Z.quot_1_r; reflexivity.
    + apply Z.leb_gt in He. rewrite Z.shiftr_div_pow2 by lia.
      assert (Hp : 0 < 2 ^ (- e)) by (apply pow2_pos; lia).
      destruct neg; simpl; rewrite Zpos_pow2 by assumption.
      * change (Z.neg m) with (- Z.pos m).
        rewrite Z.quot_opp_l by lia.
        rewrite Z.quot_div_nonneg by lia. reflexivity.
      * rewrite Z.quot_div_nonneg by lia. reflexivity.
Qed.

(** A finite double is positive exactly when its sign bit is clear. *)
Lemma float_value_sign (neg : bool) (m : positive) (e : Z) (v : Q) :
  float_value (S754_finite neg m e) = Some v ->
  (0 < v)%Q <-> neg = false.
Proof.
  intros H.
  set (a := if 0 <=? e then inject_Z (Z.pos m * 2 ^ e)
            else (Z.pos m # Pos.pow 2 (Z.to_pos (- e)))%Q).
  assert (Ha : 0 < Qnum a).
  { subst a. destruct (0 <=? e) eqn:He; cbn [Qnum inject_Z].
    - apply Z.leb_le in He. pose proof (pow2_pos e He).
      apply Z.mul_pos_pos; lia.
    - lia. }
  change (Some (if neg then Qopp a else a) = Some v) in H.
  clearbody a. injection H as <-.
  destruct neg; unfold Qlt; cbn [Qnum Qden Qopp]; split; intros H;
    try reflexivity; try discriminate; lia.
Qed.

Lemma int_truncates (q : value) (v : Q) :
  num_value q = Some v -> py_int q = Ret (truncate v).
Proof.
  destruct q; simpl; try discriminate.
  - intros H. injection H as <-. destruct b; reflexivity.
  - intros H. injection H as <-. unfold truncate. simpl.
    rewrite Z.quot_1_r. reflexivity.
  - apply int_of_float_truncates.
Qed.

Lemma gt_zero_compares (q : value) (v : Q) :
  num_value q = Some v ->
  py_gt_zero q = Ret (if Qlt_le_dec 0 v then true else false).
Proof.
  destruct q; simpl; try discriminate.
  - intros H. injection H as <-.
    destruct b; destruct (Qlt_le_dec _ _) as [Hlt | Hle]; try reflexivity.
    + exfalso. revert Hle. unfold Qle. simpl. lia.
    + exfalso. revert Hlt. unfold Qlt. simpl. lia.
  - intros H. injection H as <-.
    destruct (Qlt_le_dec _ _) as [Hlt | Hle]; f_equal.
    + apply Z.ltb_lt. revert Hlt. unfold Qlt. simpl. lia.
    + apply Z.ltb_ge. revert Hle. unfold Qle. simpl. lia.
  - destruct f as [s | s | | neg m e]; try discriminate.
    + simpl. intros H. injection H as <-.
      destruct (Qlt_le_dec _ _) as [Hlt | Hle]; [|reflexivity].
      exfalso. revert Hlt. unfold Qlt. simpl. lia.
    + intros H. pose proof (float_value_sign _ _ _ _ H) as Hs.
      destruct (Qlt_le_dec 0 v) as [Hlt | Hle].
      * apply Hs in Hlt. subst neg. reflexivity.
      * destruct neg; [reflexivity|].
        exfalso. apply (Qlt_irrefl 0). eapply Qlt_le_trans; [|exact Hle].
        apply Hs. reflexivity.
Qed.

Lemma build_payload_numeric (q : value) (v : Q) :
  num_value q = Some v ->
  build_payload q =
    Ret (mk_payload (truncate v) true
           (if Qlt_le_dec 0 v then instock else outofstock)).
Proof.
  intros H. unfold build_payload.
  rewrite (int_truncates _ _ H), (gt_zero_compares _ _ H).
  destruct (Qlt_le_dec 0 v); reflexivity.
Qed.

(** A quantity strictly between 0 and 1 truncates to 0. *)
Lemma truncate_fraction (v : Q) : (0 < v)%Q -> (v < 1)%Q -> truncate v = 0.
Proof.
  destruct v as [a d]. unfold Qlt, truncate. simpl. intros H0 H1.
  apply Z.quot_small. lia.
Qed.

(** ** The push of one quantity *)

Section PushOne.

Context {Net : Type} (R : remote Net).

(** A push whose quantity makes a payload sends exactly one request,
    whatever the shop answers. *)
Lemma update_sends_payload (self : Sync) (product_id : Z)
    (quantity product_name : value) (body : payload) (n : Net) :
  build_payload quantity = Ret body ->
  sent (emitted (update_woocommerce_stock R self product_id quantity
                   product_name n)) =
    [mk_put (product_url self product_id) (credentials self) body 20].
Proof.
  intros Hb. unfold update_woocommerce_stock. unfold_monad.
  rewrite Hb. run_step.
  destruct (http_put R _ n) as [[status | e] n']; run_step.
  - destruct (raise_for_status status) as [[] | e]; run_step;
      [reflexivity|].
    destruct e; try reflexivity.
    destruct (status0 =? 404); reflexivity.
  - destruct e; try reflexivity.
    destruct (status =? 404); reflexivity.
Qed.

(** A push whose quantity makes no payload sends nothing. *)
Lemma update_without_payload (self : Sync) (product_id : Z)
    (quantity product_name : value) (e : exn) (n : Net) :
  build_payload quantity = Raise e ->
  sent (emitted (update_woocommerce_stock R self product_id quantity
                   product_name n)) = [].
Proof.
  intros Hb. unfold update_woocommerce_stock. unfold_monad.
  rewrite Hb. run_step.
  destruct e; try reflexivity.
  destruct (status =? 404); reflexivity.
Qed.

(** C7.  For every numeric quantity [q] (an integer, a boolean or a finite
    double) denoting the number [v], the payload of the push holds
    [stock_quantity] = [v] truncated towards zero, [manage_stock] = true
    and [stock_status] = "instock" when [0 < v], "outofstock" otherwise,
    and that payload is the body of the one request the push sends.  In
    particular 0 and -1 give "outofstock", 5 gives "instock", and 2.75
    gives the quantity 2. *)
Theorem C7_payload_truncates_and_flags :
  (forall (q : value) (v : Q),
      num_value q = Some v ->
      let body := mk_payload (truncate v) true
                    (if Qlt_le_dec 0 v then instock else outofstock) in
      build_payload q = Ret body /\
      forall (self : Sync) (product_id : Z) (product_name : value) (n : Net),
        sent (emitted (update_woocommerce_stock R self product_id q
                         product_name n)) =
          [mk_put (product_url self product_id) (credentials self) body 20])
  /\ build_payload (VInt 0) = Ret (mk_payload 0 true outofstock)
  /\ build_payload (VInt (-1)) = Ret (mk_payload (-1) true outofstock)
  /\ build_payload (VInt 5) = Ret (mk_payload 5 true instock)
  /\ build_payload (VFloat (S754_finite false 11 (-2))) =
       Ret (mk_payload 2 true instock).
Proof.
  split; [|repeat split; reflexivity].
  intros q v Hv body.
  pose proof (build_payload_numeric q v Hv) as Hb.
  split; [exact Hb|].
  intros self product_id product_name n.
  apply update_sends_payload. exact Hb.
Qed.

(** C10.  For every double [f] denoting a number strictly between 0 and 1
    the payload holds [stock_quantity] = 0 together with [stock_status] =
    "instock", and the push sends it. *)
Theorem C10_fraction_zero_but_instock (f : spec_float) (v : Q) :
  float_value f = Some v -> (0 < v)%Q -> (v < 1)%Q ->
  build_payload (VFloat f) = Ret (mk_payload 0 true instock) /\
  forall (self : Sync) (product_id : Z) (product_name : value) (n : Net),
    sent (emitted (update_woocommerce_stock R self product_id (VFloat f)
                     product_name n)) =
      [mk_put (product_url self product_id) (credentials self)
         (mk_payload 0 true instock) 20].
Proof.
  intros Hv H0 H1.
  assert (Hb : build_payload (VFloat f) = Ret (mk_payload 0 true instock)).
  { rewrite (build_payload_numeric (VFloat f) v Hv).
    rewrite (truncate_fraction v H0 H1).
    destruct (Qlt_le_dec 0 v) as [_ | Hle]; [reflexivity|].
    exfalso. apply (Qlt_irrefl 0). eapply Qlt_le_trans; eassumption. }
  split; [exact Hb|].
  intros. apply update_sends_payload. exact Hb.
Qed.

End PushOne.

(** 0.5 as a double: the quantity sent is 0 and the flag says in stock. *)
Lemma C10_witness :
  build_payload (VFloat (S754_finite false 1 (-1))) =
    Ret (mk_payload 0 true instock).
Proof.
  apply (proj1 (C10_fraction_zero_but_instock Scenario.erp_and_shop
                  (S754_finite false 1 (-1)) (1 # 2)
                  eq_refl eq_refl eq_refl)).
Defined.

(** 2.75 as a double: the quantity sent is 2, the truncation of 11/4. *)
Lemma C7_witness :
  build_payload (VFloat (S754_finite false 11 (-2))) =
    Ret (mk_payload (truncate (11 # 4)) true instock).
Proof.
  apply (proj1 (proj1 (C7_payload_truncates_and_flags Scenario.erp_and_shop)
                  (VFloat (S754_finite false 11 (-2))) (11 # 4) eq_refl)).
Defined.

(** ** Connecting *)

Section Connect.

Context {Net : Type} (R : remote Net).

(** A credential is missing when it is unset or empty: the list of
    missing variables is empty exactly when the four are there. *)
Lemma missing_vars_nil (self : Sync) :
  missing_vars self = [] <->
  truthy_opt (odoo_url self) = true /\ truthy_opt (odoo_db self) = true /\
  truthy_opt (odoo_username self) = true /\
  truthy_opt (odoo_password self) = true.
Proof.
  unfold missing_vars.
  destruct (truthy_opt (odoo_url self)), (truthy_opt (odoo_db self)),
    (truthy_opt (odoo_username self)), (truthy_opt (odoo_password self));
    cbn; split; intros H; try discriminate; try reflexivity;
    try (repeat split; reflexivity);
    destruct H as (H1 & H2 & H3 & H4); discriminate.
Qed.

(** With a credential missing, [connect_odoo] answers false at once. *)
Lemma connect_missing (self : Sync) (n : Net) :
  missing_vars self <> [] ->
  connect_odoo R self n =
    mk_result (Ret (false, self)) n
      [Printed Connecting; Printed (ShowUrl (odoo_url self));
       Printed (ShowDb (odoo_db self)); Printed (ShowUser (odoo_username self));
       Printed (ConnectionFailed (Raised_MissingVars (missing_vars self)))].
Proof.
  intros Hm. unfold connect_odoo. unfold_monad.
  destruct (missing_vars self) as [|x l] eqn:E; [contradiction|].
  reflexivity.
Qed.

(** With the four credentials, [connect_odoo] is decided by the two
    answers of the remote. *)
Lemma connect_present (self : Sync) (n : Net) :
  missing_vars self = [] ->
  res (connect_odoo R self n) =
    match xmlrpc R (version_call self) n with
    | (Raise _, _) => Ret (false, self)
    | (Ret version_info, n1) =>
        match py_get version_info "server_version" (VStr "unknown") with
        | Raise _ => Ret (false, self)
        | Ret _ =>
            match xmlrpc R (authenticate_call self) n1 with
            | (Raise _, _) => Ret (false, self)
            | (Ret uid, _) =>
                if truthy uid then Ret (true, connected self uid)
                else Ret (false, self)
            end
        end
    end.
Proof.
  intros Hm. unfold connect_odoo. unfold_monad. rewrite Hm.
  destruct (xmlrpc R (version_call self) n) as [[version_info | e] n1];
    run_step; [|reflexivity].
  destruct (py_get version_info _ _) as [sv | e]; run_step; [|reflexivity].
  destruct (xmlrpc R (authenticate_call self) n1) as [[uid | e] n2];
    run_step; [|reflexivity].
  destruct (truthy uid); reflexivity.
Qed.

(** [connect_odoo] always returns: nothing it meets reaches the caller. *)
Lemma connect_returns (self : Sync) (n : Net) :
  exists (ok : bool) (self' : Sync),
    res (connect_odoo R self n) = Ret (ok, self').
Proof.
  destruct (missing_vars self) as [|x l] eqn:Hm.
  - rewrite (connect_present self n Hm).
    destruct (xmlrpc R (version_call self) n) as [[version_info | e] n1];
      [|eauto].
    destruct (py_get version_info _ _); [|eauto].
    destruct (xmlrpc R (authenticate_call self) n1) as [[uid | e] n2];
      [|eauto].
    destruct (truthy uid); eauto.
  - rewrite connect_missing by (rewrite Hm; discriminate). cbn. eauto.
Qed.


(** C8.  [connect_odoo] always returns a boolean.  With any of the four
    credentials unset or empty it returns false, leaves the outside
    untouched, makes no call and prints the failure with the list of the
    missing variables.  With the four present it returns false when
    [version] raises, when [authenticate] raises, and when
    [authenticate] answers a falsy identifier. *)
Theorem C8_connect_never_raises (self : Sync) (n : Net) :
  (exists (ok : bool) (self' : Sync),
      res (connect_odoo R self n) = Ret (ok, self'))
  /\ (truthy_opt (odoo_url self) = false \/ truthy_opt (odoo_db self) = false \/
      truthy_opt (odoo_username self) = false \/
      truthy_opt (odoo_password self) = false ->
      let r := connect_odoo R self n in
      res r = Ret (false, self) /\ net_after r = n /\
      called (emitted r) = [] /\ sent (emitted r) = [] /\
      missing_vars self <> [] /\
      In (Printed (ConnectionFailed (Raised_MissingVars (missing_vars self))))
         (emitted r))
  /\ (missing_vars self = [] ->
      (forall e n1, xmlrpc R (version_call self) n = (Raise e, n1) ->
                    res (connect_odoo R self n) = Ret (false, self))
      /\ (forall v n1 e n2,
             xmlrpc R (version_call self) n = (Ret v, n1) ->
             xmlrpc R (authenticate_call self) n1 = (Raise e, n2) ->
             res (connect_odoo R self n) = Ret (false, self))
      /\ (forall v n1 uid n2,
             xmlrpc R (version_call self) n = (Ret v, n1) ->
             xmlrpc R (authenticate_call self) n1 = (Ret uid, n2) ->
             truthy uid = false ->
             res (connect_odoo R self n) = Ret (false, self))).
Proof.
  split; [apply connect_returns|]. split.
  - intros Hany.
    assert (Hm : missing_vars self <> []).
    { intros Hnil. apply missing_vars_nil in Hnil.
      destruct Hnil as (H1 & H2 & H3 & H4).
      destruct Hany as [H | [H | [H | H]]]; congruence. }
    cbv zeta. rewrite (connect_missing self n Hm).
    cbn [res net_after emitted]. repeat split; try reflexivity.
    + exact Hm.
    + cbn. tauto.
  - intros Hm. repeat split.
    + intros e n1 Hv. rewrite (connect_present self n Hm), Hv. reflexivity.
    + intros v n1 e n2 Hv Ha.
      rewrite (connect_present self n Hm), Hv.
      destruct (py_get v _ _); [rewrite Ha|]; reflexivity.
    + intros v n1 uid n2 Hv Ha Hu.
      rewrite (connect_present self n Hm), Hv.
      destruct (py_get v _ _); [rewrite Ha, Hu|]; reflexivity.
Qed.

(** C4, as the code has it.  With the four credentials present, a
    [version] answer that is a dictionary lets [connect_odoo] go on to
    [authenticate], whether the dictionary holds [server_version] or not:
    the result is true, with the session set, exactly when the
    identifier [authenticate] answers is truthy. *)
Theorem C4_version_dict_does_not_block (self : Sync) (n n1 n2 : Net)
    (d : list (string * value)) (uid : value) :
  missing_vars self = [] ->
  xmlrpc R (version_call self) n = (Ret (VDict d), n1) ->
  xmlrpc R (authenticate_call self) n1 = (Ret uid, n2) ->
  truthy uid = true ->
  let r := connect_odoo R self n in
  res r = Ret (true, connected self uid) /\
  called (emitted r) = [version_call self; authenticate_call self].
Proof.
  intros Hm Hv Ha Hu. cbv zeta. split.
  - rewrite (connect_present self n Hm), Hv. cbn.
    destruct (dict_lookup _ d); rewrite Ha, Hu; reflexivity.
  - unfold connect_odoo. unfold_monad. rewrite Hm, Hv. run_step.
    cbn [py_get].
    destruct (dict_lookup _ d); run_step; rewrite Ha; run_step;
      rewrite Hu; reflexivity.
Qed.

End Connect.

(** ** Fetching *)

Lemma push_silent_nil : push_silent [].
Proof. repeat split. Qed.

Lemma push_silent_app (l1 l2 : list event) :
  push_silent l1 -> push_silent l2 -> push_silent (l1 ++ l2).
Proof.
  unfold push_silent, sent, push_lines, push_successes, push_failures,
    updated_totals, error_totals.
  intros (A1 & A2 & A3 & A4 & A5 & A6) (B1 & B2 & B3 & B4 & B5 & B6).
  rewrite !flat_map_app, A1, A2, A3, A4, A5, A6, B1, B2, B3, B4, B5, B6.
  repeat split.
Qed.

(** A new key goes last. *)
Lemma dict_set_fresh {A : Type} (k : string) (v : A) (d : list (string * A)) :
  ~ In k (map fst d) -> dict_set k v d = (d ++ [(k, v)])%list.
Proof.
  induction d as [|[k' v'] d IH]; intros Hk; [reflexivity|].
  cbn in *. destruct (String.eqb_spec k' k) as [-> | Hne].
  - exfalso. apply Hk. left. reflexivity.
  - rewrite IH by tauto. reflexivity.
Qed.

(** An assignment keeps the keys that were there and adds at most its
    own. *)
Lemma dict_set_keys {A : Type} (k k0 : string) (v : A) (d : list (string * A)) :
  In k0 (map fst (dict_set k v d)) -> k0 = k \/ In k0 (map fst d).
Proof.
  induction d as [|[k' v'] d IH]; cbn.
  - intros [H | []]; left; symmetry; exact H.
  - destruct (String.eqb_spec k' k) as [-> | Hne]; cbn.
    + tauto.
    + intros [H | H]; [tauto|]. apply IH in H. tauto.
Qed.

Section Fetch.

Context {Net : Type} (R : remote Net).

(** The per-item fetch always returns; it makes the one [search_read]
    call for its barcode when connected, and prints nothing that the
    loops print. *)
Lemma fetch_one_shape (self : Sync) (barcode : string) (n : Net) :
  exists (o : option stock_info) (n' : Net) (ev : list event),
    get_product_stock_by_barcode R self barcode n = mk_result (Ret o) n' ev
    /\ push_silent ev /\ fetch_report ev = []
    /\ called ev = match odoo_models self with
                   | Some url => [search_read_call self url barcode]
                   | None => []
                   end.
Proof.
  unfold get_product_stock_by_barcode. unfold_monad.
  destruct (odoo_models self) as [url|]; run_step.
  2: { do 3 eexists. split; [reflexivity|]. repeat split. }
  destruct (xmlrpc R _ n) as [[products | e] n']; run_step.
  2: { do 3 eexists. split; [reflexivity|]. repeat split. }
  destruct (truthy products); run_step.
  2: { do 3 eexists. split; [reflexivity|]. repeat split. }
  destruct (py_first products) as [product | e]; run_step.
  2: { do 3 eexists. split; [reflexivity|]. repeat split. }
  destruct (py_getitem product "id") as [i | e]; run_step.
  2: { do 3 eexists. split; [reflexivity|]. repeat split. }
  destruct (py_getitem product "name") as [nm | e]; run_step.
  2: { do 3 eexists. split; [reflexivity|]. repeat split. }
  destruct (py_getitem product "barcode") as [b | e]; run_step.
  2: { do 3 eexists. split; [reflexivity|]. repeat split. }
  destruct (py_get product "qty_available" (VInt 0)) as [q | e]; run_step.
  2: { do 3 eexists. split; [reflexivity|]. repeat split. }
  do 3 eexists. split; [reflexivity|]. repeat split.
Qed.

(** Not found: the call answers something falsy. *)
Lemma fetch_one_not_found (self : Sync) (url barcode : string)
    (v : value) (n n' : Net) :
  odoo_models self = Some url ->
  xmlrpc R (search_read_call self url barcode) n = (Ret v, n') ->
  truthy v = false ->
  get_product_stock_by_barcode R self barcode n =
    mk_result (Ret None) n'
      [Called (search_read_call self url barcode);
       Printed (ProductNotFound barcode)].
Proof.
  intros Hm Hc Hv.
  unfold get_product_stock_by_barcode. unfold_monad.
  rewrite Hm, Hc. run_step. rewrite Hv. reflexivity.
Qed.

(** The call raises: caught, no record. *)
Lemma fetch_one_raises (self : Sync) (url barcode : string)
    (e : exn) (n n' : Net) :
  odoo_models self = Some url ->
  xmlrpc R (search_read_call self url barcode) n = (Raise e, n') ->
  get_product_stock_by_barcode R self barcode n =
    mk_result (Ret None) n'
      [Called (search_read_call self url barcode);
       Printed (FetchFailed barcode e)].
Proof.
  intros Hm Hc.
  unfold get_product_stock_by_barcode. unfold_monad.
  rewrite Hm, Hc. reflexivity.
Qed.

(** One turn of the fetch loop, spelt out. *)
Lemma fetch_loop_cons (self : Sync) (barcode : string) (wc : value)
    (rest : list (string * value)) (acc : list (string * stock_entry))
    (n : Net) :
  fetch_loop R self ((barcode, wc) :: rest) acc n =
    let g := get_product_stock_by_barcode R self barcode n in
    match res g with
    | Ret (Some p) =>
        match py_int wc with
        | Ret i =>
            let r' := fetch_loop R self rest
                        (dict_set barcode
                           (mk_entry (info_name p) (qty_available p) i) acc)
                        (net_after g) in
            mk_result (res r') (net_after r')
              (emitted g
               ++ Printed (FetchOk (info_name p) barcode (qty_available p) wc)
                  :: emitted r')
        | Raise e => mk_result (Raise e) (net_after g) (emitted g)
        end
    | Ret None =>
        let r' := fetch_loop R self rest acc (net_after g) in
        mk_result (res r') (net_after r')
          (emitted g ++ Printed (Skipped barcode) :: emitted r')
    | Raise e => mk_result (Raise e) (net_after g) (emitted g)
    end.
Proof.
  cbn [fetch_loop]. unfold bind at 1.
  destruct (get_product_stock_by_barcode R self barcode n) as [[[p|]|e] n' ev];
    run_step; [| |reflexivity].
  - unfold_monad.
    destruct (py_int wc) as [i|e]; run_step.
    + destruct (fetch_loop R self rest _ n') as [o n'' ev']; reflexivity.
    + rewrite app_nil_r. reflexivity.
  - unfold_monad.
    destruct (fetch_loop R self rest acc n') as [o n'' ev']; reflexivity.
Qed.

(** One turn of the fetch loop on an entry whose fetch gave no record:
    the entry is reported skipped and the loop goes on with the rest,
    [products_stock] unchanged. *)
Lemma fetch_loop_skip (self : Sync) (barcode : string) (wc : value)
    (rest : list (string * value)) (acc : list (string * stock_entry))
    (n n' : Net) (ev : list event) :
  get_product_stock_by_barcode R self barcode n = mk_result (Ret None) n' ev ->
  let r := fetch_loop R self ((barcode, wc) :: rest) acc n in
  let r' := fetch_loop R self rest acc n' in
  res r = res r' /\ net_after r = net_after r' /\
  emitted r = (ev ++ Printed (Skipped barcode) :: emitted r')%list.
Proof.
  intros Hg. rewrite fetch_loop_cons, Hg. run_step. repeat split.
Qed.

(** The keys of what the loop returns were in [products_stock] already
    or are keys of the entries it went through. *)
Lemma fetch_loop_keys (self : Sync) (items : list (string * value)) :
  forall (acc ps : list (string * stock_entry)) (n : Net) (k : string),
    res (fetch_loop R self items acc n) = Ret ps ->
    In k (map fst ps) -> In k (map fst acc) \/ In k (map fst items).
Proof.
  induction items as [|[b wc] rest IH]; intros acc ps n k.
  - cbn. intros H. injection H as <-. tauto.
  - rewrite fetch_loop_cons. cbv zeta.
    destruct (res (get_product_stock_by_barcode R self b n)) as [[p|]|e];
      [| |discriminate].
    + destruct (py_int wc) as [i|e]; [|discriminate]. run_step.
      intros Hr Hk. destruct (IH _ _ _ _ Hr Hk) as [H | H].
      * apply dict_set_keys in H. cbn. destruct H as [-> | H]; tauto.
      * cbn. tauto.
    + run_step. intros Hr Hk. destruct (IH _ _ _ _ Hr Hk); cbn; tauto.
Qed.

(** The fetch loop, when it returns, has asked for each entry once in the
    order of the entries, has reported each entry kept or skipped in that
    order, and returns, after the entries that were there, the kept ones
    in that order.  It pushes nothing. *)
Lemma fetch_loop_shape (self : Sync) (url : string)
    (items : list (string * value)) :
  odoo_models self = Some url ->
  forall (acc : list (string * stock_entry)) (n : Net),
    let r := fetch_loop R self items acc n in
    push_silent (emitted r) /\
    forall ps, res r = Ret ps ->
      map fst (fetch_report (emitted r)) = map fst items /\
      called (emitted r) =
        map (fun kv => search_read_call self url (fst kv)) items /\
      (NoDup (map fst acc ++ map fst items) ->
       map fst ps =
         (map fst acc ++ map fst (filter snd (fetch_report (emitted r))))%list).
Proof.
  intros Hm. induction items as [|[b wc] rest IH]; intros acc n r.
  - subst r. cbn. split; [apply push_silent_nil|].
    intros ps H. injection H as <-. repeat split.
    intros _. rewrite app_nil_r. reflexivity.
  - subst r. rewrite fetch_loop_cons. cbv zeta.
    destruct (fetch_one_shape self b n) as (o & n' & ev & Hg & Hs & Hr & Hc).
    rewrite Hm in Hc. rewrite Hg. run_step.
    destruct o as [p|]; run_step.
    + destruct (py_int wc) as [i|e]; run_step.
      * specialize (IH (dict_set b (mk_entry (info_name p) (qty_available p) i)
                          acc) n').
        cbv zeta in IH. destruct IH as [IHs IHr].
        split.
        { apply push_silent_app; [exact Hs|].
          apply (push_silent_app [_]); [repeat split | exact IHs]. }
        intros ps Hps. destruct (IHr ps Hps) as (I1 & I2 & I3).
        unfold fetch_report, called in *.
        rewrite !flat_map_app, Hr, Hc. cbn [flat_map app map fst].
        rewrite I1, I2. repeat split.
        intros Hnd. cbn [map fst] in Hnd.
        assert (Hb : ~ In b (map fst acc)).
        { intros Hin. apply NoDup_remove_2 in Hnd. apply Hnd.
          apply in_or_app. left. exact Hin. }
        rewrite (dict_set_fresh _ _ _ Hb) in I3 |- *.
        rewrite I3.
        2: { rewrite map_app. cbn [map fst]. rewrite <- app_assoc. exact Hnd. }
        rewrite map_app. cbn [map fst filter snd app].
        rewrite <- app_assoc. reflexivity.
      * split; [exact Hs | discriminate].
    + specialize (IH acc n'). cbv zeta in IH. destruct IH as [IHs IHr].
      split.
      { apply push_silent_app; [exact Hs|].
        apply (push_silent_app [_]); [repeat split | exact IHs]. }
      intros ps Hps. destruct (IHr ps Hps) as (I1 & I2 & I3).
      unfold fetch_report, called in *.
      rewrite !flat_map_app, Hr, Hc. cbn [flat_map app map fst].
      rewrite I1, I2. repeat split.
      intros Hnd. cbn [map fst filter snd app] in *.
      apply I3. apply NoDup_remove_1 in Hnd. exact Hnd.
Qed.

(** The fetch phase pushes nothing, whatever the mapping. *)
Lemma fetch_loop_silent (self : Sync) (items : list (string * value)) :
  forall (acc : list (string * stock_entry)) (n : Net),
    push_silent (emitted (fetch_loop R self items acc n)).
Proof.
  induction items as [|[b wc] rest IH]; intros acc n.
  - apply push_silent_nil.
  - rewrite fetch_loop_cons. cbv zeta.
    destruct (fetch_one_shape self b n) as (o & n' & ev & Hg & Hs & _).
    rewrite Hg. run_step.
    destruct o as [p|]; [destruct (py_int wc) as [i|e]|]; run_step;
      try exact Hs;
      (apply push_silent_app; [exact Hs|];
       apply (push_silent_app [_]); [repeat split | apply IH]).
Qed.

Lemma get_all_silent (self : Sync) (n : Net) :
  push_silent (emitted (get_all_products_stock R self n)).
Proof.
  unfold get_all_products_stock. unfold_monad.
  destruct (py_len (product_mapping self)); run_step;
    [|apply push_silent_nil].
  destruct (py_items (product_mapping self)) as [items|e]; run_step.
  - pose proof (fetch_loop_silent self items [] n) as Hs.
    destruct (fetch_loop R self items [] n) as [o n' ev]. run_step.
    apply (push_silent_app [_]); [repeat split | exact Hs].
  - repeat split.
Qed.

(** On a dictionary the fetch phase is the loop over its entries. *)
Lemma get_all_dict (self : Sync) (d : list (string * value)) (n : Net) :
  product_mapping self = VDict d ->
  let r := get_all_products_stock R self n in
  let r' := fetch_loop R self d [] n in
  res r = res r' /\ net_after r = net_after r' /\
  emitted r = Printed (FetchingStock (List.length d)) :: emitted r'.
Proof.
  intros Hd. unfold get_all_products_stock. unfold_monad.
  rewrite Hd. run_step. cbn [py_len py_items]. run_step.
  destruct (fetch_loop R self d [] n) as [o n' ev]. run_step.
  repeat split.
Qed.

End Fetch.

(** ** Pushing *)

Section Push.

Context {Net : Type} (R : remote Net).

(** A push always returns a boolean.  It calls no XML-RPC method, sends
    the request of its quantity if there is one, and reports itself done
    when it returns true, failed when it returns false. *)
Lemma update_shape (self : Sync) (product_id : Z)
    (quantity product_name : value) (n : Net) :
  exists (ok : bool) (n' : Net) (ev : list event),
    update_woocommerce_stock R self product_id quantity product_name n =
      mk_result (Ret ok) n' ev
    /\ called ev = [] /\ fetch_report ev = [] /\ push_lines ev = []
    /\ updated_totals ev = [] /\ error_totals ev = []
    /\ push_successes ev = (if ok then [product_id] else [])
    /\ push_failures ev = (if ok then [] else [product_id]).
Proof.
  unfold update_woocommerce_stock. unfold_monad.
  destruct (build_payload quantity) as [body | e]; run_step.
  - destruct (http_put R _ n) as [[status | e] n']; run_step.
    + destruct (raise_for_status status) as [[] | e]; run_step.
      * exists true. do 2 eexists. split; [reflexivity|]. repeat split.
      * exists false. destruct e; try destruct (status0 =? 404);
          do 2 eexists; (split; [reflexivity|]); repeat split.
    + exists false. destruct e; try destruct (status =? 404);
        do 2 eexists; (split; [reflexivity|]); repeat split.
  - exists false. destruct e; try destruct (status =? 404);
      do 2 eexists; (split; [reflexivity|]); repeat split.
Qed.

(** What a push returns, from the answer of the shop: true unless the
    status is an error status (400 to 599) or the request raised. *)
Lemma update_result (self : Sync) (product_id : Z)
    (quantity product_name : value) (body : payload) (n : Net) :
  build_payload quantity = Ret body ->
  res (update_woocommerce_stock R self product_id quantity product_name n) =
    Ret match http_put R (mk_put (product_url self product_id)
                            (credentials self) body 20) n with
        | (Ret status, _) => negb ((400 <=? status) && (status <? 600))
        | (Raise _, _) => false
        end.
Proof.
  intros Hb. unfold update_woocommerce_stock. unfold_monad.
  rewrite Hb. run_step.
  destruct (http_put R _ n) as [[status | e] n']; run_step.
  - unfold raise_for_status.
    destruct ((400 <=? status) && (status <? 600)); run_step;
      [destruct (status =? 404)|]; reflexivity.
  - destruct e; try destruct (status =? 404); reflexivity.
Qed.

(** One turn of the push loop, spelt out. *)
Lemma push_loop_cons (self : Sync) (barcode : string) (data : stock_entry)
    (rest : list (string * stock_entry)) (u e : nat) (n : Net) :
  push_loop R self ((barcode, data) :: rest) u e n =
    let up := update_woocommerce_stock R self (wc_id data) (qty data)
                (name data) n in
    match res up with
    | Ret ok =>
        let r' := push_loop R self rest (if ok then S u else u)
                    (if ok then e else S e) (net_after up) in
        mk_result (res r') (net_after r')
          (Printed (ProductLine (name data) barcode (qty data) (wc_id data))
           :: emitted up ++ emitted r')
    | Raise x =>
        mk_result (Raise x) (net_after up)
          (Printed (ProductLine (name data) barcode (qty data) (wc_id data))
           :: emitted up)
    end.
Proof.
  cbn [push_loop]. unfold_monad. run_step.
  destruct (update_woocommerce_stock R self _ _ _ n) as [[ok|x] n' ev];
    run_step; [|reflexivity].
  destruct ok; destruct (push_loop R self rest _ _ n') as [o n'' ev'];
    reflexivity.
Qed.

(** The push loop always returns its two counters.  It takes up every
    item, in order; each item adds one to [total_updated] if its push
    reported done and one to [total_errors] if it reported failed; the
    requests sent are those of the items, in order. *)
Lemma push_loop_shape (self : Sync) (items : list (string * stock_entry)) :
  forall (u e : nat) (n : Net),
    let r := push_loop R self items u e n in
    res r = Ret ((u + List.length (push_successes (emitted r)))%nat,
                 (e + List.length (push_failures (emitted r)))%nat)
    /\ (List.length (push_successes (emitted r))
        + List.length (push_failures (emitted r)) = List.length items)%nat
    /\ push_lines (emitted r) = items
    /\ sent (emitted r) = flat_map (put_of self) items
    /\ called (emitted r) = [] /\ fetch_report (emitted r) = []
    /\ updated_totals (emitted r) = [] /\ error_totals (emitted r) = [].
Proof.
  induction items as [|[b data] rest IH]; intros u e n r; subst r.
  - cbn. rewrite !Nat.add_0_r. repeat split.
  - rewrite push_loop_cons. cbv zeta.
    destruct (update_shape self (wc_id data) (qty data) (name data) n)
      as (ok & n' & ev & Hu & U1 & U2 & U3 & U4 & U5 & U6 & U7).
    rewrite Hu. run_step.
    specialize (IH (if ok then S u else u) (if ok then e else S e) n').
    cbv zeta in IH. destruct IH as (I0 & I1 & I2 & I3 & I4 & I5 & I6 & I7).
    assert (Hsent : sent ev = put_of self (b, data)).
    { unfold put_of. cbn [snd].
      destruct (build_payload (qty data)) as [body | x] eqn:Hb.
      - rewrite <- (update_sends_payload R self (wc_id data) (qty data)
                      (name data) body n Hb), Hu. reflexivity.
      - rewrite <- (update_without_payload R self (wc_id data) (qty data)
                      (name data) x n Hb), Hu. reflexivity. }
    unfold push_successes, push_failures, push_lines, sent, called,
      fetch_report, updated_totals, error_totals in *.
    cbn [flat_map app]. rewrite !flat_map_app.
    rewrite U1, U2, U3, U4, U5, U6, U7, I2, I3, I4, I5, I6, I7, Hsent.
    rewrite !length_app. rewrite I0.
    destruct data as [nm q i]. cbn [name qty wc_id].
    destruct ok; cbn [List.length app]; repeat split;
      try (f_equal; f_equal; lia); lia.
Qed.

End Push.

(** ** The run *)

(** Reading a list of events built with [::] and [++]. *)
Ltac project :=
  unfold called, sent, fetch_report, push_lines, push_successes,
    push_failures, updated_totals, error_totals in *;
  repeat first [rewrite !flat_map_app | progress cbn [flat_map app]].

Section Run.

Context {Net : Type} (R : remote Net).

(** [sync_stock], from what the fetch phase gives: false with nothing
    pushed when the fetch phase raises or returns nothing; true
    otherwise, every fetched item taken up in order and the two totals
    counting the pushes reported done and failed. *)
Lemma sync_stock_shape (self : Sync) (n : Net) :
  let f := get_all_products_stock R self n in
  let r := sync_stock R self n in
  called (emitted r) = called (emitted f) /\
  fetch_report (emitted r) = fetch_report (emitted f) /\
  match res f with
  | Ret ((_ :: _) as ps) =>
      res r = Ret true /\ push_lines (emitted r) = ps /\
      sent (emitted r) = flat_map (put_of self) ps /\
      updated_totals (emitted r) = [List.length (push_successes (emitted r))] /\
      error_totals (emitted r) =
        (if (0 <? List.length (push_failures (emitted r)))%nat
         then [List.length (push_failures (emitted r))] else []) /\
      (List.length (push_successes (emitted r))
       + List.length (push_failures (emitted r)) = List.length ps)%nat
  | _ => res r = Ret false /\ push_silent (emitted r)
  end.
Proof.
  cbv zeta. pose proof (get_all_silent R self n) as Hs.
  unfold sync_stock. unfold_monad.
  destruct (get_all_products_stock R self n) as [[ps | x] n' ev];
    cbn [emitted] in Hs; run_step.
  - destruct ps as [|bd ps]; run_step.
    + split; [|split; [|split]]; try reflexivity.
      * project. rewrite !app_nil_r. reflexivity.
      * project. rewrite !app_nil_r. reflexivity.
      * apply (push_silent_app [_]); [repeat split|].
        apply push_silent_app; [exact Hs | repeat split].
    + pose proof (push_loop_shape R self (bd :: ps) 0 0 n') as Hp.
      cbv zeta in Hp.
      destruct (push_loop R self (bd :: ps) 0 0 n') as [o n'' pev].
      cbn [res net_after emitted Nat.add] in Hp.
      destruct Hp as (P0 & P1 & P2 & P3 & P4 & P5 & P6 & P7).
      subst o. run_step.
      destruct Hs as (S1 & S2 & S3 & S4 & S5 & S6).
      destruct (0 <? List.length (push_failures pev))%nat eqn:He; run_step;
        project;
        rewrite ?S1, ?S2, ?S3, ?S4, ?S5, ?S6, ?P2, ?P3, ?P4, ?P5, ?P6, ?P7;
        cbn [app]; rewrite ?app_nil_r;
        fold (push_failures pev) in *; fold (push_successes pev) in *;
        rewrite ?He; repeat split; exact P1.
  - split; [|split; [|split]]; try reflexivity.
    + project. rewrite !app_nil_r. reflexivity.
    + project. rewrite !app_nil_r. reflexivity.
    + apply (push_silent_app [_]); [repeat split|].
      apply push_silent_app; [exact Hs | repeat split].
Qed.

(** [sync_stock] always returns a boolean. *)
Lemma sync_stock_returns (self : Sync) (n : Net) :
  exists ok : bool, res (sync_stock R self n) = Ret ok.
Proof.
  pose proof (sync_stock_shape self n) as H. cbv zeta in H.
  destruct H as (_ & _ & H).
  destruct (res (get_all_products_stock R self n)) as [[|bd ps] | x];
    destruct H as [H _]; eauto.
Qed.

(** [connect_odoo] pushes nothing and reports no entry. *)
Lemma connect_silent (self : Sync) (n : Net) :
  push_silent (emitted (connect_odoo R self n)) /\
  fetch_report (emitted (connect_odoo R self n)) = [].
Proof.
  unfold connect_odoo. unfold_monad.
  destruct (missing_vars self); run_step; [|repeat split].
  destruct (xmlrpc R (version_call self) n) as [[v | e] n1]; run_step;
    [|repeat split].
  destruct (py_get v _ _); run_step; [|repeat split].
  destruct (xmlrpc R (authenticate_call self) n1) as [[uid | e] n2];
    run_step; [|repeat split].
  destruct (truthy uid); run_step; repeat split.
Qed.

(** [run] is [connect_odoo], then [sync_stock] on the connected instance
    when the connection answered true. *)
Lemma run_shape (self : Sync) (n : Net) :
  let c := connect_odoo R self n in
  let r := run R self n in
  match res c with
  | Ret (true, self') =>
      let s := sync_stock R self' (net_after c) in
      res r = res s /\ net_after r = net_after s /\
      emitted r = (emitted c ++ emitted s)%list
  | _ => res r = Ret false /\ net_after r = net_after c /\
         emitted r = emitted c
  end.
Proof.
  cbv zeta. unfold run. unfold_monad.
  destruct (connect_returns R self n) as (ok & self' & Hc).
  destruct (connect_odoo R self n) as [o n' ev]. cbn [res] in Hc. subst o.
  run_step. destruct ok; cbn [negb]; run_step.
  - destruct (sync_stock_returns self' n') as (b & Hs).
    destruct (sync_stock R self' n') as [o n'' sev]. cbn [res] in Hs.
    subst o. run_step. repeat split.
  - rewrite app_nil_r. repeat split.
Qed.

(** [run] always returns a boolean. *)
Lemma run_returns (self : Sync) (n : Net) :
  exists ok : bool, res (run R self n) = Ret ok.
Proof.
  pose proof (run_shape self n) as H. cbv zeta in H.
  destruct (connect_returns R self n) as (ok & self' & Hc).
  rewrite Hc in H. destruct ok.
  - destruct H as (H & _). rewrite H. apply sync_stock_returns.
  - destruct H as (H & _). eauto.
Qed.

(** [init] leaves the outside alone and neither calls nor pushes. *)
Lemma init_shape (env : environ) (file : file_state) (n : Net) :
  let r := @init Net env file n in
  net_after r = n /\ push_silent (emitted r) /\ called (emitted r) = [] /\
  fetch_report (emitted r) = [].
Proof.
  cbv zeta. unfold init, load_product_mapping. unfold_monad.
  destruct (int_of_string (location_id_str env)); run_step;
    destruct file as [| | v]; run_step;
    try (destruct (py_len v)); run_step; repeat split.
Qed.


(** [main] after a successful [init] is [run] on the instance built. *)
Lemma main_shape (env : environ) (file : file_state) (n : Net) (self : Sync) :
  res (init env file n) = Ret self ->
  let r := main R env file n in
  let r' := run R self n in
  res r = res r' /\ net_after r = net_after r' /\
  emitted r = (emitted (@init Net env file n) ++ emitted r')%list.
Proof.
  intros Hi. cbv zeta. unfold main. unfold_monad.
  pose proof (init_shape env file n) as (Hn & _).
  destruct (init env file n) as [o n0 ev]. cbn [res net_after] in *.
  subst o n0. run_step.
  destruct (run R self n) as [o n1 ev1]. repeat split.
Qed.

End Run.

(** ** The whole run, from the entry point *)

Lemma silent_prefix (l l' : list event) :
  push_silent l ->
  sent (l ++ l') = sent l' /\ push_lines (l ++ l') = push_lines l' /\
  push_successes (l ++ l') = push_successes l' /\
  push_failures (l ++ l') = push_failures l' /\
  updated_totals (l ++ l') = updated_totals l' /\
  error_totals (l ++ l') = error_totals l'.
Proof.
  intros (S1 & S2 & S3 & S4 & S5 & S6). project.
  rewrite S1, S2, S3, S4, S5, S6. repeat split.
Qed.

Lemma NoDup_map_filter {A B : Type} (f : A -> B) (p : A -> bool) (l : list A) :
  NoDup (map f l) -> NoDup (map f (filter p l)).
Proof.
  induction l as [|a l IH]; cbn; intros H; [constructor|].
  inversion H as [|x xs Hnotin Hnd]; subst.
  destruct (p a); cbn; [constructor|]; auto.
  intros Hin. apply Hnotin. apply in_map_iff in Hin.
  destruct Hin as (y & Hy & Hin). apply filter_In in Hin.
  apply in_map_iff. exists y. tauto.
Qed.

Section Claims.

Context {Net : Type} (R : remote Net).

(** After a successful [init] and a connection that answered true, what
    [main] returns and pushes is what [sync_stock] returns and pushes. *)
Lemma main_connected (env : environ) (file : file_state) (n : Net)
    (self0 self : Sync) :
  res (init env file n) = Ret self0 ->
  res (connect_odoo R self0 n) = Ret (true, self) ->
  let r := main R env file n in
  let s := sync_stock R self (net_after (connect_odoo R self0 n)) in
  res r = res s /\ fetch_report (emitted r) = fetch_report (emitted s) /\
  sent (emitted r) = sent (emitted s) /\
  push_lines (emitted r) = push_lines (emitted s) /\
  push_successes (emitted r) = push_successes (emitted s) /\
  push_failures (emitted r) = push_failures (emitted s) /\
  updated_totals (emitted r) = updated_totals (emitted s) /\
  error_totals (emitted r) = error_totals (emitted s).
Proof.
  intros Hi Hc. cbv zeta.
  destruct (main_shape R env file n self0 Hi) as (M1 & _ & M3).
  pose proof (run_shape R self0 n) as Hr. cbv zeta in Hr. rewrite Hc in Hr.
  destruct Hr as (R1 & _ & R3).
  destruct (init_shape (Net:=Net) env file n) as (_ & Is & _ & If).
  destruct (connect_silent R self0 n) as (Cs & Cf).
  rewrite M1, R1, M3, R3, app_assoc.
  pose proof (push_silent_app _ _ Is Cs) as Hs.
  destruct (silent_prefix _ (emitted (sync_stock R self
              (net_after (connect_odoo R self0 n)))) Hs)
    as (P1 & P2 & P3 & P4 & P5 & P6).
  rewrite P1, P2, P3, P4, P5, P6. repeat split.
  unfold fetch_report in *. rewrite !flat_map_app, If, Cf. reflexivity.
Qed.

(** C5.  When [init] returned, [connect_odoo] answered true and the fetch
    phase returned at least one record, the run returns true and the
    process exits with code 0, however many pushes fail: every fetched
    item is taken up by the push loop, [total_updated] is the number of
    pushes reported done, [total_errors] the number reported failed (it
    is printed when positive), and the two add up to the number of
    fetched items.  A push of a quantity that makes a payload returns
    false, without raising, exactly when the shop answers an error
    status (400 to 599, 404 among them) or the request raises. *)
Theorem C5_failed_pushes_do_not_fail_the_run (env : environ)
    (file : file_state) (n : Net) (self0 self : Sync)
    (ps : list (string * stock_entry)) :
  res (init env file n) = Ret self0 ->
  res (connect_odoo R self0 n) = Ret (true, self) ->
  res (get_all_products_stock R self
         (net_after (connect_odoo R self0 n))) = Ret ps ->
  ps <> [] ->
  let r := main R env file n in
  res r = Ret true /\ exit_code r = 0 /\
  push_lines (emitted r) = ps /\
  updated_totals (emitted r) = [List.length (push_successes (emitted r))] /\
  error_totals (emitted r) =
    (if (0 <? List.length (push_failures (emitted r)))%nat
     then [List.length (push_failures (emitted r))] else []) /\
  (List.length (push_successes (emitted r))
   + List.length (push_failures (emitted r)) = List.length ps)%nat /\
  forall (product_id : Z) (quantity product_name : value) (body : payload)
         (n1 : Net),
    build_payload quantity = Ret body ->
    res (update_woocommerce_stock R self product_id quantity product_name n1) =
      Ret match http_put R (mk_put (product_url self product_id)
                              (credentials self) body 20) n1 with
          | (Ret status, _) => negb ((400 <=? status) && (status <? 600))
          | (Raise _, _) => false
          end.
Proof.
  intros Hi Hc Hf Hne. cbv zeta.
  destruct (main_connected env file n self0 self Hi Hc)
    as (M0 & _ & _ & M2 & M3 & M4 & M5 & M6).
  pose proof (sync_stock_shape R self (net_after (connect_odoo R self0 n)))
    as Hs.
  cbv zeta in Hs. rewrite Hf in Hs. destruct Hs as (_ & _ & Hs).
  destruct ps as [|bd ps]; [contradiction|].
  destruct Hs as (S0 & S1 & _ & S3 & S4 & S5).
  unfold exit_code. rewrite M0, M2, M3, M4, M5, M6, S0.
  repeat split; try assumption.
  intros. apply update_result. assumption.
Qed.





(** C6.  At any turn of the fetch loop, on an entry [K] whose
    [search_read] answers nothing (not found) or raises: the entry is
    reported skipped, [products_stock] is left as it was and the loop
    goes on with the remaining entries from the state the call left; a
    key that occurs once in the mapping is then absent from what the
    loop returns; the fetch reports no push failure, and the error total
    [sync_stock] prints is the number of pushes reported failed. *)
Theorem C6_skipped_entries_are_omitted_not_counted (self : Sync)
    (url K : string) (wc : value) (rest : list (string * value))
    (acc : list (string * stock_entry)) (n n' : Net) :
  odoo_models self = Some url ->
  (exists v, xmlrpc R (search_read_call self url K) n = (Ret v, n') /\
             truthy v = false) \/
  (exists e, xmlrpc R (search_read_call self url K) n = (Raise e, n')) ->
  ~ In K (map fst acc) -> ~ In K (map fst rest) ->
  let r := fetch_loop R self ((K, wc) :: rest) acc n in
  let r' := fetch_loop R self rest acc n' in
  res r = res r' /\ net_after r = net_after r' /\
  fetch_report (emitted r) = (K, false) :: fetch_report (emitted r') /\
  (forall ps, res r = Ret ps -> ~ In K (map fst ps)) /\
  push_failures (emitted r) = [] /\
  forall n0, let s := sync_stock R self n0 in
    push_failures (emitted (get_all_products_stock R self n0)) = [] /\
    error_totals (emitted s) =
      (if (0 <? List.length (push_failures (emitted s)))%nat
       then [List.length (push_failures (emitted s))] else []).
Proof.
  intros Hm Hcall HKacc HKrest. cbv zeta.
  assert (Hg : exists ev, get_product_stock_by_barcode R self K n =
                            mk_result (Ret None) n' ev /\
                          fetch_report ev = []).
  { destruct Hcall as [(v & Hc & Hv) | (e & Hc)].
    - rewrite (fetch_one_not_found R self url K v n n' Hm Hc Hv).
      eexists. split; reflexivity.
    - rewrite (fetch_one_raises R self url K e n n' Hm Hc).
      eexists. split; reflexivity. }
  destruct Hg as (ev & Hg & Hev).
  pose proof (fetch_loop_skip R self K wc rest acc n n' ev Hg) as Hs.
  cbv zeta in Hs. destruct Hs as (H1 & H2 & H3).
  repeat split; try assumption.
  - rewrite H3. unfold fetch_report in *. rewrite flat_map_app, Hev.
    reflexivity.
  - intros ps Hps Hin. rewrite H1 in Hps.
    destruct (fetch_loop_keys R self rest acc ps n' K Hps Hin); contradiction.
  - apply (fetch_loop_silent R self ((K, wc) :: rest) acc n).
  - apply (get_all_silent R self n0).
  - pose proof (sync_stock_shape R self n0) as Hs. cbv zeta in Hs.
    destruct Hs as (_ & _ & Hs).
    destruct (res (get_all_products_stock R self n0)) as [[|bd ps] | x].
    + destruct Hs as (_ & _ & _ & _ & S4 & _ & S6). rewrite S4, S6.
      reflexivity.
    + apply Hs.
    + destruct Hs as (_ & _ & _ & _ & S4 & _ & S6). rewrite S4, S6.
      reflexivity.
Qed.

(** C9.  On a connected instance whose mapping is a dictionary with
    distinct keys, when the fetch phase returns: [sync_stock] has asked
    the Source for each key of the mapping once, in the mapping's order;
    it has reported each key kept or skipped in that order; the fetched
    records are the kept keys in that order; the push loop takes up
    exactly the fetched records, in that order, each once, and the
    requests sent are theirs in that order. *)
Theorem C9_push_order_is_fetch_order_is_mapping_order (self : Sync)
    (url : string) (d : list (string * value)) (n : Net)
    (ps : list (string * stock_entry)) :
  odoo_models self = Some url ->
  product_mapping self = VDict d ->
  NoDup (map fst d) ->
  res (get_all_products_stock R self n) = Ret ps ->
  let r := sync_stock R self n in
  called (emitted r) = map (fun kv => search_read_call self url (fst kv)) d /\
  map fst (fetch_report (emitted r)) = map fst d /\
  map fst ps = map fst (filter snd (fetch_report (emitted r))) /\
  push_lines (emitted r) = ps /\
  sent (emitted r) = flat_map (put_of self) ps /\
  NoDup (map fst (push_lines (emitted r))).
Proof.
  intros Hm Hd Hnd Hf. cbv zeta.
  pose proof (sync_stock_shape R self n) as Hs. cbv zeta in Hs.
  destruct Hs as (S1 & S2 & S3). rewrite Hf in S3.
  destruct (get_all_dict R self d n Hd) as (G1 & _ & G3).
  pose proof (fetch_loop_shape R self url d Hm [] n) as Hl. cbv zeta in Hl.
  destruct Hl as (_ & Hl). rewrite G1 in Hf.
  destruct (Hl ps Hf) as (L1 & L2 & L3).
  assert (Hrep : fetch_report (emitted (sync_stock R self n)) =
                 fetch_report (emitted (fetch_loop R self d [] n))).
  { rewrite S2, G3. reflexivity. }
  assert (Hkeys : map fst ps =
                  map fst (filter snd (fetch_report
                                         (emitted (sync_stock R self n))))).
  { rewrite Hrep. apply L3. exact Hnd. }
  assert (Hlines : push_lines (emitted (sync_stock R self n)) = ps /\
                   sent (emitted (sync_stock R self n)) =
                     flat_map (put_of self) ps).
  { destruct ps as [|bd ps].
    - destruct S3 as (_ & P1 & P2 & _). split; assumption.
    - destruct S3 as (_ & P1 & P2 & _). split; assumption. }
  destruct Hlines as (Hp & Hsent).
  repeat split; try assumption.
  - rewrite S1, G3. cbn [called flat_map app]. exact L2.
  - rewrite Hrep. exact L1.
  - rewrite Hp, Hkeys. apply NoDup_map_filter.
    rewrite Hrep, L1. exact Hnd.
Qed.

(** C2.  The configured stock location takes no part in the fetch: the
    [search_read] request is the same whatever [odoo_location_id] is, and
    so are the answer, the state the call leaves and what is printed. *)
Theorem C2_fetch_ignores_the_location (self : Sync) (location : Z)
    (barcode : string) (n : Net) :
  get_product_stock_by_barcode R (with_location self location) barcode n =
    get_product_stock_by_barcode R self barcode n /\
  forall url, search_read_call (with_location self location) url barcode =
              search_read_call self url barcode.
Proof.
  split; reflexivity.
Qed.

End Claims.

(** ** The properties on the scripted Source and Sink *)

Import Scenario.

(** Scenario A: one entry, fetched and pushed; exit code 0, one update,
    no error line. *)
Example scenario_A :
  let r := main erp_and_shop good_env (Parsed mapping_A) 0%nat in
  exit_code r = 0 /\ updated_totals (emitted r) = [1%nat] /\
  error_totals (emitted r) = [] /\
  map put_json (sent (emitted r)) = [mk_payload 12 true instock].
Proof. vm_compute. repeat split. Qed.

(** Scenario B: the credentials are rejected; nothing is fetched or
    pushed, exit code 1. *)
Example scenario_B :
  let r := main erp_rejecting good_env (Parsed mapping_two) 0%nat in
  exit_code r = 1 /\ sent (emitted r) = [] /\
  List.length (called (emitted r)) = 2%nat.
Proof. vm_compute. repeat split. Qed.

(** Scenario C: two entries, one not found at the Source; one update and
    no error. *)
Example scenario_C :
  let r := main erp_and_shop good_env (Parsed mapping_missing) 0%nat in
  exit_code r = 0 /\ fetch_report (emitted r) = [("NOPE", false); ("ABC123", true)] /\
  updated_totals (emitted r) = [1%nat] /\ error_totals (emitted r) = [].
Proof. vm_compute. repeat split. Qed.

(** A mapping file holding a JSON number: [len] raises in [__init__],
    outside every handler. *)
Example scalar_mapping_escapes :
  res (main erp_and_shop good_env (Parsed (VInt 5)) 0%nat) = Raise TypeError.
Proof. reflexivity. Qed.

(** The environment's location, parsed or defaulted. *)
Example location_ids :
  int_of_string (location_id_str (env_of [])) = Some 8 /\
  int_of_string (location_id_str (env_of [("ODOO_LOCATION_ID", " 12 ")])) =
    Some 12 /\
  int_of_string (location_id_str (env_of [("ODOO_LOCATION_ID", "")])) =
    Some 8 /\
  int_of_string (location_id_str (env_of [("ODOO_LOCATION_ID", "main")])) =
    None.
Proof. vm_compute. repeat split. Qed.





(** Valid credentials, an [authenticate] that would answer the user 2,
    and a [version] that answers [None]: [connect_odoo] returns false and
    never calls [authenticate]. *)
Lemma C4_counterexample :
  missing_vars (fresh_sync mapping_A) = [] /\
  xmlrpc erp_without_version (authenticate_call (fresh_sync mapping_A)) 1%nat
    = (Ret (VInt 2), 2%nat) /\
  res (connect_odoo erp_without_version (fresh_sync mapping_A) 0%nat) =
    Ret (false, fresh_sync mapping_A) /\
  called (emitted (connect_odoo erp_without_version (fresh_sync mapping_A)
                     0%nat)) = [version_call (fresh_sync mapping_A)].
Proof. vm_compute. repeat split. Qed.

(** A [version] answer without [server_version]. *)
Lemma C4_witness :
  res (connect_odoo erp_bare_version (fresh_sync mapping_A) 0%nat) =
    Ret (true, connected (fresh_sync mapping_A) (VInt 2)).
Proof.
  apply (C4_version_dict_does_not_block erp_bare_version
           (fresh_sync mapping_A) 0%nat 1%nat 2%nat [] (VInt 2)
           eq_refl eq_refl eq_refl eq_refl).
Defined.

(** Two fetched items, the second unknown to the shop (404): exit code
    0, both taken up. *)
Lemma C5_witness :
  exit_code (main erp_and_shop good_env (Parsed mapping_two) 0%nat) = 0 /\
  push_lines (emitted (main erp_and_shop good_env (Parsed mapping_two) 0%nat))
    = fetched_two /\
  push_failures (emitted (main erp_and_shop good_env (Parsed mapping_two)
                            0%nat)) = [56].
Proof.
  pose proof (C5_failed_pushes_do_not_fail_the_run erp_and_shop good_env
                (Parsed mapping_two) 0%nat (fresh_sync mapping_two)
                (connected_sync mapping_two 8) fetched_two
                eq_refl eq_refl eq_refl ltac:(discriminate)) as H.
  cbv zeta in H. destruct H as (_ & H1 & H2 & _ & _ & H5 & _).
  split; [exact H1 | split; [exact H2|]].
  vm_compute. reflexivity.
Defined.

(** The first key of [mapping_missing] is not found. *)
Lemma C6_witness :
  res (fetch_loop erp_and_shop (connected_sync mapping_missing 8)
         [("NOPE", VStr "54"); ("ABC123", VStr "55")] [] 0%nat) =
  res (fetch_loop erp_and_shop (connected_sync mapping_missing 8)
         [("ABC123", VStr "55")] [] 1%nat).
Proof.
  refine (proj1 (C6_skipped_entries_are_omitted_not_counted erp_and_shop
                   (connected_sync mapping_missing 8)
                   "https://erp.example/xmlrpc/2/object" "NOPE" (VStr "54")
                   [("ABC123", VStr "55")] [] 0%nat 1%nat eq_refl
                   (or_introl (ex_intro _ (VList []) (conj eq_refl eq_refl)))
                   _ _)).
  - intros [].
  - cbn. intros [H | []]. discriminate H.
Defined.

(** No credential at all; then the four of them with an Odoo that
    rejects them, and with one that cannot be reached. *)
Lemma C8_witness :
  res (connect_odoo erp_and_shop unconfigured 0%nat) = Ret (false, unconfigured)
  /\ net_after (connect_odoo erp_and_shop unconfigured 0%nat) = 0%nat
  /\ res (connect_odoo erp_rejecting (fresh_sync mapping_A) 0%nat) =
       Ret (false, fresh_sync mapping_A)
  /\ res (connect_odoo erp_down (fresh_sync mapping_A) 0%nat) =
       Ret (false, fresh_sync mapping_A).
Proof.
  destruct (C8_connect_never_raises erp_and_shop unconfigured 0%nat)
    as (_ & Hmissing & _).
  destruct (Hmissing (or_introl eq_refl)) as (H1 & H2 & _).
  destruct (C8_connect_never_raises erp_rejecting (fresh_sync mapping_A) 0%nat)
    as (_ & _ & Hrej).
  destruct (Hrej eq_refl) as (_ & _ & H3).
  destruct (C8_connect_never_raises erp_down (fresh_sync mapping_A) 0%nat)
    as (_ & _ & Hdown).
  destruct (Hdown eq_refl) as (H4 & _).
  split; [exact H1 | split; [exact H2 | split]].
  - exact (H3 _ 1%nat (VBool false) 2%nat eq_refl eq_refl eq_refl).
  - exact (H4 TransportError 1%nat eq_refl).
Defined.

(** [mapping_missing]: two keys asked for in order, the second kept and
    pushed. *)
Lemma C9_witness :
  map fst (fetch_report
             (emitted (sync_stock erp_and_shop
                         (connected_sync mapping_missing 8) 0%nat))) =
    ["NOPE"; "ABC123"] /\
  push_lines (emitted (sync_stock erp_and_shop
                         (connected_sync mapping_missing 8) 0%nat)) =
    [("ABC123", mk_entry (VStr "Widget") (VFloat twelve) 55)].
Proof.
  assert (Hnd : NoDup ["NOPE"; "ABC123"]).
  { constructor; [|constructor; [|constructor]].
    - cbn. intros [H | []]. discriminate H.
    - intros []. }
  pose proof (C9_push_order_is_fetch_order_is_mapping_order erp_and_shop
                (connected_sync mapping_missing 8)
                "https://erp.example/xmlrpc/2/object"
                [("NOPE", VStr "54"); ("ABC123", VStr "55")] 0%nat
                [("ABC123", mk_entry (VStr "Widget") (VFloat twelve) 55)]
                eq_refl eq_refl Hnd eq_refl) as H.
  cbv zeta in H. destruct H as (_ & H1 & _ & H2 & _).
  split; [exact H1 | exact H2].
Defined.

(** With location 8 and with location 12 the instance sends the same
    request, in which no location occurs. *)
Example C2_same_request_for_locations_8_and_12 :
  called (emitted (get_product_stock_by_barcode erp_and_shop
                     (connected_sync mapping_A 8) "ABC123" 0%nat)) =
  called (emitted (get_product_stock_by_barcode erp_and_shop
                     (connected_sync mapping_A 12) "ABC123" 0%nat)) /\
  called (emitted (get_product_stock_by_barcode erp_and_shop
                     (connected_sync mapping_A 12) "ABC123" 0%nat)) =
  [mk_rpc "https://erp.example/xmlrpc/2/object" "execute_kw"
     [VStr "prod"; VInt 2; VStr "secret"; VStr "product.product";
      VStr "search_read";
      VList [VList [VList [VStr "barcode"; VStr "="; VStr "ABC123"]]];
      VDict [("fields", VList [VStr "id"; VStr "name"; VStr "barcode";
                               VStr "qty_available"]);
             ("limit", VInt 1)]]].
Proof. vm_compute. split; reflexivity. Qed.

(** * Further properties of the code *)

(** ** Decimal text and [int] *)












(** ** Start-up *)

Section Startup.

Context {Net : Type} (R : remote Net).

(** What [init] builds when it returns: the fields read from the
    environment, the location parsed or defaulted, no session yet. *)
Lemma init_fields (env : environ) (file : file_state) (n : Net) (self : Sync) :
  res (@init Net env file n) = Ret self ->
  wc_url self = env "WC_URL" /\
  wc_consumer_key self = env "WC_CONSUMER_KEY" /\
  wc_consumer_secret self = env "WC_CONSUMER_SECRET" /\
  odoo_url self = env "ODOO_URL" /\ odoo_db self = env "ODOO_DB" /\
  odoo_username self = py_or (env "ODOO_USERNAME") (env "ODOO_USER") /\
  odoo_password self = env "ODOO_PASSWORD" /\
  odoo_uid self = VNone /\ odoo_models self = None /\
  odoo_location_id self =
    match int_of_string (location_id_str env) with
    | Some z => z
    | None => 8
    end /\
  location_warnings (emitted (@init Net env file n)) =
    match int_of_string (location_id_str env) with
    | Some _ => []
    | None => [location_id_str env]
    end.
Proof.
  unfold init, load_product_mapping. unfold_monad.
  destruct (int_of_string (location_id_str env)); run_step;
    destruct file as [| | v]; run_step;
    try (destruct (py_len v); run_step);
    intros H; try discriminate H; injection H as <-; cbn; repeat split.
Qed.

(** What [init] returns or raises, by the mapping file. *)
Lemma init_result (env : environ) (file : file_state) (n : Net) :
  (exists self, res (@init Net env file n) = Ret self /\
                product_mapping self =
                  match file with Parsed v => v | _ => VDict [] end) \/
  (exists v e, file = Parsed v /\ py_len v = Raise e /\
               res (@init Net env file n) = Raise e).
Proof.
  unfold init, load_product_mapping. unfold_monad.
  destruct (int_of_string (location_id_str env)); run_step;
    destruct file as [| | v]; run_step;
    try (destruct (py_len v) eqn:Hl; run_step);
    try (left; eexists; split; reflexivity);
    right; exists v; eexists; repeat split; exact Hl.
Qed.



(** X4.  An exception leaves [main] exactly when the mapping file parses
    to a JSON value without a length ([null], a boolean or a number);
    with the file absent, unreadable, or holding an object, an array or
    a string, [main] returns. *)
Theorem X4_main_raises_iff_mapping_has_no_length (env : environ)
    (file : file_state) (n : Net) :
  crashed (main R env file n) = true <->
  exists v, file = Parsed v /\
            (v = VNone \/ (exists b, v = VBool b) \/ (exists z, v = VInt z) \/
             (exists f, v = VFloat f)).
Proof.
  split.
  - intros Hc.
    destruct (init_result env file n) as [(self & Hi & _) | (v & e & Hf & Hl & _)].
    + destruct (main_shape R env file n self Hi) as (M1 & _).
      destruct (run_returns R self n) as (b & Hb).
      unfold crashed in Hc. rewrite M1, Hb in Hc. discriminate Hc.
    + exists v. split; [exact Hf|].
      destruct v; cbn in Hl; try discriminate Hl; eauto 6.
  - intros (v & -> & Hv).
    assert (Hl : py_len v = Raise TypeError).
    { destruct Hv as [-> | [(b & ->) | [(z & ->) | (f & ->)]]]; reflexivity. }
    unfold crashed, main, init, load_product_mapping. unfold_monad.
    destruct (int_of_string (location_id_str env)); run_step;
      rewrite Hl; reflexivity.
Qed.

(** X6.  When [__init__] returned and one of the Odoo settings is unset
    or empty in the environment (the user name counts as missing only
    when both [ODOO_USERNAME] and [ODOO_USER] are), the process exits
    with code 1 having made no XML-RPC call and sent no request, the
    outside left as it was. *)
Theorem X6_missing_environment_stops_before_any_call (env : environ)
    (file : file_state) (n : Net) (self : Sync) :
  res (@init Net env file n) = Ret self ->
  truthy_opt (env "ODOO_URL") = false \/ truthy_opt (env "ODOO_DB") = false \/
  (truthy_opt (env "ODOO_USERNAME") = false /\
   truthy_opt (env "ODOO_USER") = false) \/
  truthy_opt (env "ODOO_PASSWORD") = false ->
  let r := main R env file n in
  res r = Ret false /\ exit_code r = 1 /\ net_after r = n /\
  called (emitted r) = [] /\ sent (emitted r) = [].
Proof.
  intros Hi Hmiss. cbv zeta.
  destruct (init_fields env file n self Hi)
    as (_ & _ & _ & Hu & Hd & Hn & Hp & _).
  assert (Hm : missing_vars self <> []).
  { intros Hnil. apply missing_vars_nil in Hnil.
    rewrite Hu, Hd, Hn, Hp in Hnil. destruct Hnil as (H1 & H2 & H3 & H4).
    destruct Hmiss as [H | [H | [(Ha & Hb) | H]]]; try congruence.
    unfold py_or in H3. rewrite Ha in H3. congruence. }
  destruct (main_shape R env file n self Hi) as (M1 & M2 & M3).
  pose proof (run_shape R self n) as Hr. cbv zeta in Hr.
  rewrite (connect_missing R self n Hm) in Hr. cbn [res net_after emitted] in Hr.
  destruct Hr as (R1 & R2 & R3).
  destruct (init_shape (Net:=Net) env file n) as (_ & (Is & _) & Ic & _).
  unfold exit_code. rewrite M1, M2, M3, R1, R2, R3.
  unfold called, sent in *. rewrite !flat_map_app, Ic, Is.
  repeat split.
Qed.


End Startup.

(** ** Connecting and running *)

Section Session.

Context {Net : Type} (R : remote Net).

(** X7.  [connect_odoo] sends no request to the shop.  When it returns
    false the instance is left as it was and the calls made are none,
    [version] alone, or [version] then [authenticate].  When it returns
    true both calls were made in that order, [authenticate] answered a
    truthy identifier, and the instance differs only by the session:
    [odoo_uid] is that identifier and [odoo_models] is the proxy of the
    object endpoint of [odoo_url]. *)
Theorem X7_connect_sets_the_session_only_on_success (self self' : Sync)
    (ok : bool) (n : Net) :
  res (connect_odoo R self n) = Ret (ok, self') ->
  let c := connect_odoo R self n in
  sent (emitted c) = [] /\
  (ok = false ->
   self' = self /\
   (called (emitted c) = [] \/ called (emitted c) = [version_call self] \/
    called (emitted c) = [version_call self; authenticate_call self])) /\
  (ok = true ->
   exists v uid n1,
     xmlrpc R (version_call self) n = (Ret v, n1) /\
     xmlrpc R (authenticate_call self) n1 = (Ret uid, net_after c) /\
     truthy uid = true /\ self' = connected self uid /\
     odoo_uid self' = uid /\ odoo_models self' = Some (object_url self) /\
     called (emitted c) = [version_call self; authenticate_call self]).
Proof.
  cbv zeta. unfold connect_odoo. unfold_monad.
  destruct (missing_vars self); run_step.
  - destruct (xmlrpc R (version_call self) n) as [[v | e] n1] eqn:Hv;
      run_step.
    + destruct (py_get v _ _); run_step.
      * destruct (xmlrpc R (authenticate_call self) n1) as [[uid | e] n2]
          eqn:Ha; run_step.
        -- destruct (truthy uid) eqn:Hu; run_step; intros H;
             injection H as <- <-; (split; [reflexivity|]); split;
             intros E; try discriminate E.
           ++ exists v, uid, n1. repeat split; assumption.
           ++ split; [reflexivity|]. right. right. reflexivity.
        -- intros H; injection H as <- <-. (split; [reflexivity|]); split;
             intros E; try discriminate E.
           split; [reflexivity|]. right. right. reflexivity.
      * intros H; injection H as <- <-. (split; [reflexivity|]); split;
          intros E; try discriminate E.
        split; [reflexivity|]. right. left. reflexivity.
    + intros H; injection H as <- <-. (split; [reflexivity|]); split;
        intros E; try discriminate E.
      split; [reflexivity|]. right. left. reflexivity.
  - intros H; injection H as <- <-. (split; [reflexivity|]); split;
      intros E; try discriminate E.
    split; [reflexivity|]. left. reflexivity.
Qed.

(** The calls of [connect_odoo] are [version] and [authenticate] only. *)
Lemma connect_calls (self : Sync) (n : Net) :
  Forall (fun c => c = version_call self \/ c = authenticate_call self)
    (called (emitted (connect_odoo R self n))).
Proof.
  unfold connect_odoo. unfold_monad.
  destruct (missing_vars self); run_step; [|constructor].
  destruct (xmlrpc R (version_call self) n) as [[v | e] n1]; run_step;
    [|repeat constructor; tauto].
  destruct (py_get v _ _); run_step; [|repeat constructor; tauto].
  destruct (xmlrpc R (authenticate_call self) n1) as [[uid | e] n2];
    run_step; [|repeat constructor; tauto].
  destruct (truthy uid); run_step; repeat constructor; tauto.
Qed.

(** X8.  When [connect_odoo] answers false, [run] returns false and
    stops there: it leaves the outside as the connection attempt left
    it, asks the Source for no product, reports no mapping entry and
    sends no request; its only calls are those of the connection. *)
Theorem X8_failed_connection_ends_the_run (self self' : Sync) (n : Net) :
  res (connect_odoo R self n) = Ret (false, self') ->
  let r := run R self n in
  res r = Ret false /\
  net_after r = net_after (connect_odoo R self n) /\
  sent (emitted r) = [] /\ fetch_report (emitted r) = [] /\
  push_lines (emitted r) = [] /\
  Forall (fun c => c = version_call self \/ c = authenticate_call self)
    (called (emitted r)).
Proof.
  intros Hc. cbv zeta.
  pose proof (run_shape R self n) as Hr. cbv zeta in Hr. rewrite Hc in Hr.
  destruct Hr as (R1 & R2 & R3).
  destruct (connect_silent R self n) as ((S1 & S2 & _) & Sf).
  rewrite R1, R2, R3. repeat split; try assumption.
  apply connect_calls.
Qed.

(** X5.  The process exits with code 0 exactly when [__init__] returned,
    [connect_odoo] answered true and the fetch phase returned at least
    one record; in every other case the exit status is 1. *)
Theorem X5_exit_code_zero_iff (env : environ) (file : file_state) (n : Net) :
  (exit_code (main R env file n) = 0 <->
   exists self0 self ps,
     res (@init Net env file n) = Ret self0 /\
     res (connect_odoo R self0 n) = Ret (true, self) /\
     res (get_all_products_stock R self
            (net_after (connect_odoo R self0 n))) = Ret ps /\
     ps <> []) /\
  (exit_code (main R env file n) = 0 \/ exit_code (main R env file n) = 1).
Proof.
  split.
  2: { unfold exit_code. destruct (res (main R env file n)) as [[|]|];
       tauto. }
  split.
  - intros Hx.
    destruct (init_result env file n)
      as [(self0 & Hi & _) | (v & e & _ & _ & Hi)].
    2: { exfalso. unfold exit_code, main in Hx. revert Hx. unfold_monad.
         destruct (init env file n) as [o n0 ev]. cbn [res] in Hi. subst o.
         discriminate. }
    destruct (main_shape R env file n self0 Hi) as (M1 & _).
    pose proof (run_shape R self0 n) as Hr. cbv zeta in Hr.
    destruct (connect_returns R self0 n) as (ok & self & Hc).
    rewrite Hc in Hr. unfold exit_code in Hx. rewrite M1 in Hx.
    destruct ok.
    2: { destruct Hr as (Hr & _). rewrite Hr in Hx. discriminate Hx. }
    destruct Hr as (Hr & _). rewrite Hr in Hx.
    pose proof (sync_stock_shape R self (net_after (connect_odoo R self0 n)))
      as Hs. cbv zeta in Hs. destruct Hs as (_ & _ & Hs).
    destruct (res (get_all_products_stock R self
                     (net_after (connect_odoo R self0 n))))
      as [[|bd ps] | x] eqn:Hf.
    + destruct Hs as (Hs & _). rewrite Hs in Hx. discriminate Hx.
    + exists self0, self, (bd :: ps). repeat split; try assumption.
      discriminate.
    + destruct Hs as (Hs & _). rewrite Hs in Hx. discriminate Hx.
  - intros (self0 & self & ps & Hi & Hc & Hf & Hne).
    destruct (main_shape R env file n self0 Hi) as (M1 & _).
    pose proof (run_shape R self0 n) as Hr. cbv zeta in Hr.
    rewrite Hc in Hr. destruct Hr as (Hr & _).
    pose proof (sync_stock_shape R self (net_after (connect_odoo R self0 n)))
      as Hs. cbv zeta in Hs. destruct Hs as (_ & _ & Hs). rewrite Hf in Hs.
    destruct ps as [|bd ps]; [contradiction|]. destruct Hs as (Hs & _).
    unfold exit_code. rewrite M1, Hr, Hs. reflexivity.
Qed.

(** X21.  The list of missing variables [connect_odoo] reports names
    exactly the settings that are unset or empty, each once, among
    [ODOO_URL], [ODOO_DB], [ODOO_USERNAME/ODOO_USER] and
    [ODOO_PASSWORD]. *)
Theorem X21_missing_list_names_exactly_the_unset (self : Sync) :
  (In "ODOO_URL" (missing_vars self) <-> truthy_opt (odoo_url self) = false) /\
  (In "ODOO_DB" (missing_vars self) <-> truthy_opt (odoo_db self) = false) /\
  (In "ODOO_USERNAME/ODOO_USER" (missing_vars self) <->
   truthy_opt (odoo_username self) = false) /\
  (In "ODOO_PASSWORD" (missing_vars self) <->
   truthy_opt (odoo_password self) = false) /\
  NoDup (missing_vars self) /\
  forall x, In x (missing_vars self) ->
            In x ["ODOO_URL"; "ODOO_DB"; "ODOO_USERNAME/ODOO_USER";
                  "ODOO_PASSWORD"].
Proof.
  unfold missing_vars.
  destruct (truthy_opt (odoo_url self)), (truthy_opt (odoo_db self)),
    (truthy_opt (odoo_username self)), (truthy_opt (odoo_password self));
    cbn [app];
    (split; [|split; [|split; [|split; [|split]]]]);
    try (split; intros H; try reflexivity; try discriminate H;
         cbn in H |- *;
         repeat (destruct H as [H | H]; try discriminate H); tauto);
    try (repeat constructor; cbn; intros H;
         repeat (destruct H as [H | H]; try discriminate H); assumption);
    try (intros x H; cbn in H |- *; tauto).
Qed.

End Session.

(** ** Fetching and pushing *)

Lemma dict_set_In {A : Type} (k k0 : string) (v v0 : A)
    (d : list (string * A)) :
  In (k0, v0) (dict_set k v d) -> (k0 = k /\ v0 = v) \/ In (k0, v0) d.
Proof.
  induction d as [|[k' v'] d IH]; cbn.
  - intros [H | []]. injection H as <- <-. left. split; reflexivity.
  - destruct (String.eqb_spec k' k) as [-> | Hne]; cbn.
    + intros [H | H]; [injection H as <- <-; left; split; reflexivity | tauto].
    + intros [H | H]; [tauto|]. apply IH in H. tauto.
Qed.

Lemma dict_set_length {A : Type} (k : string) (v : A) (d : list (string * A)) :
  (List.length (dict_set k v d) <= S (List.length d))%nat.
Proof.
  induction d as [|[k' v'] d IH]; cbn; [lia|].
  destruct (k' =? k)%string; cbn; lia.
Qed.

(** The integral part is never farther from zero than the number. *)
Lemma truncate_brackets (v : Q) :
  ((0 <= v)%Q ->
   (inject_Z (truncate v) <= v)%Q /\ (v < inject_Z (truncate v + 1))%Q) /\
  ((v <= 0)%Q ->
   (v <= inject_Z (truncate v))%Q /\ (inject_Z (truncate v - 1) < v)%Q).
Proof.
  destruct v as [a d]. unfold truncate, Qle, Qlt. cbn [Qnum Qden inject_Z].
  rewrite !Z.mul_1_r.
  assert (Hd : 0 < Z.pos d) by lia.
  split; intros Ha.
  - assert (H0 : 0 <= a) by lia.
    rewrite Z.quot_div_nonneg by lia.
    pose proof (Z.mul_div_le a (Z.pos d) Hd).
    pose proof (Z.mul_succ_div_gt a (Z.pos d) Hd).
    split; rewrite Z.mul_comm; [exact H | exact H1].
  - assert (H0 : 0 <= - a) by lia.
    assert (Hq : a ÷ Z.pos d = - (- a / Z.pos d)).
    { rewrite <- (Z.quot_div_nonneg (- a)) by lia.
      rewrite Z.quot_opp_l by lia. lia. }
    rewrite Hq.
    pose proof (Z.mul_div_le (- a) (Z.pos d) Hd) as H.
    pose proof (Z.mul_succ_div_gt (- a) (Z.pos d) Hd) as H1.
    set (t := - a / Z.pos d) in *. clearbody t.
    replace (- t * Z.pos d) with (- (Z.pos d * t)) by ring.
    replace ((- t - 1) * Z.pos d) with (- (Z.pos d * Z.succ t))
      by (unfold Z.succ; ring).
    set (x := Z.pos d * t) in *. set (y := Z.pos d * Z.succ t) in *.
    clearbody x y. split; lia.
Qed.

Section Items.

Context {Net : Type} (R : remote Net).

Lemma handlers_silent_app (l1 l2 : list event) :
  handlers_silent l1 -> handlers_silent l2 -> handlers_silent (l1 ++ l2).
Proof.
  unfold handlers_silent, sync_failures, critical_errors.
  intros (A1 & A2) (B1 & B2). rewrite !flat_map_app, A1, A2, B1, B2.
  split; reflexivity.
Qed.

Lemma fetch_one_handlers_silent (self : Sync) (barcode : string) (n : Net) :
  handlers_silent (emitted (get_product_stock_by_barcode R self barcode n)).
Proof.
  unfold get_product_stock_by_barcode. unfold_monad.
  destruct (odoo_models self); run_step; [|split; reflexivity].
  destruct (xmlrpc R _ n) as [[v | x] n1]; run_step; [|split; reflexivity].
  destruct (truthy v); run_step; [|split; reflexivity].
  destruct (py_first v) as [a|]; run_step; [|split; reflexivity].
  destruct (py_getitem a "id"); run_step; [|split; reflexivity].
  destruct (py_getitem a "name"); run_step; [|split; reflexivity].
  destruct (py_getitem a "barcode"); run_step; [|split; reflexivity].
  destruct (py_get a "qty_available" (VInt 0)); split; reflexivity.
Qed.

Lemma fetch_loop_handlers_silent (self : Sync)
    (items : list (string * value)) :
  forall (acc : list (string * stock_entry)) (n : Net),
    handlers_silent (emitted (fetch_loop R self items acc n)).
Proof.
  induction items as [|[k wc] rest IH]; intros acc n; [split; reflexivity|].
  rewrite fetch_loop_cons. cbv zeta.
  pose proof (fetch_one_handlers_silent self k n) as Hg.
  destruct (get_product_stock_by_barcode R self k n) as [[[p|]|x] n1 ev];
    cbn [emitted] in Hg; run_step;
    [destruct (py_int wc); run_step| |]; try exact Hg;
    (apply handlers_silent_app; [exact Hg|];
     apply (handlers_silent_app [_]); [split; reflexivity | apply IH]).
Qed.

Lemma get_all_handlers_silent (self : Sync) (n : Net) :
  handlers_silent (emitted (get_all_products_stock R self n)).
Proof.
  unfold get_all_products_stock. unfold_monad.
  destruct (py_len (product_mapping self)); run_step; [|split; reflexivity].
  destruct (py_items (product_mapping self)) as [items | x]; run_step;
    [|split; reflexivity].
  pose proof (fetch_loop_handlers_silent self items [] n) as Hl.
  destruct (fetch_loop R self items [] n) as [o n1 ev1]. run_step.
  apply (handlers_silent_app [_]); [split; reflexivity | exact Hl].
Qed.

Lemma push_loop_handlers_silent (self : Sync)
    (items : list (string * stock_entry)) :
  forall (u e : nat) (n : Net),
    handlers_silent (emitted (push_loop R self items u e n)).
Proof.
  induction items as [|[b data] rest IH]; intros u e n; [split; reflexivity|].
  rewrite push_loop_cons. cbv zeta.
  assert (Hu : handlers_silent
                 (emitted (update_woocommerce_stock R self (wc_id data)
                             (qty data) (name data) n))).
  { unfold update_woocommerce_stock. unfold_monad.
    destruct (build_payload (qty data)) as [body | x]; run_step.
    - destruct (http_put R _ n) as [[status | x] n1]; run_step.
      + destruct (raise_for_status status) as [[] | x]; run_step;
          [split; reflexivity|].
        destruct x; try destruct (status0 =? 404); split; reflexivity.
      + destruct x; try destruct (status =? 404); split; reflexivity.
    - destruct x; try destruct (status =? 404); split; reflexivity. }
  destruct (update_woocommerce_stock R self _ _ _ n) as [[ok | x] n1 ev];
    cbn [emitted] in Hu; run_step.
  - apply (handlers_silent_app [_]); [split; reflexivity|].
    apply handlers_silent_app; [exact Hu | apply IH].
  - apply (handlers_silent_app [_]); [split; reflexivity | exact Hu].
Qed.

(** The handler of [sync_stock] speaks once when the fetch phase raises
    and not otherwise; the handler of [run] does not speak under
    [sync_stock]. *)
Lemma sync_stock_handlers (self : Sync) (n : Net) :
  sync_failures (emitted (sync_stock R self n)) =
    match res (get_all_products_stock R self n) with
    | Raise e => [e]
    | Ret _ => []
    end /\
  critical_errors (emitted (sync_stock R self n)) = [].
Proof.
  pose proof (get_all_handlers_silent self n) as (G1 & G2).
  unfold sync_stock. unfold_monad.
  destruct (get_all_products_stock R self n) as [[ps | x] n' ev];
    cbn [emitted res] in *; run_step.
  - destruct ps as [|bd ps]; run_step.
    + unfold sync_failures, critical_errors in *. cbn [flat_map app].
      rewrite !flat_map_app, G1, G2. split; reflexivity.
    + pose proof (push_loop_handlers_silent self (bd :: ps) 0 0 n')
        as (P1 & P2).
      pose proof (push_loop_shape R self (bd :: ps) 0 0 n') as Hp.
      cbv zeta in Hp. destruct Hp as (P0 & _).
      destruct (push_loop R self (bd :: ps) 0 0 n') as [o n'' pev].
      cbn [res emitted] in *. subst o. run_step.
      destruct (0 <? _)%nat; run_step;
        unfold sync_failures, critical_errors in *; cbn [flat_map app];
        rewrite !flat_map_app, G1, G2; cbn [flat_map app];
        rewrite !flat_map_app, P1, P2; split; reflexivity.
  - unfold sync_failures, critical_errors in *. cbn [flat_map app].
    rewrite !flat_map_app, G1, G2. split; reflexivity.
Qed.

(** X20.  [sync_stock] reports a failure ([ERROR: Synchronization
    failed]) exactly when the fetch phase raises, once, with that
    exception; a failed push never causes one. *)
Theorem X20_sync_reports_failure_iff_fetch_raises (self : Sync) (n : Net) :
  sync_failures (emitted (sync_stock R self n)) =
    match res (get_all_products_stock R self n) with
    | Raise e => [e]
    | Ret _ => []
    end.
Proof. apply sync_stock_handlers. Qed.

(** X19.  [run] always returns a boolean and its own handler
    ([CRITICAL ERROR]) never runs: [connect_odoo] and [sync_stock] catch
    whatever is raised under them. *)
Theorem X19_run_never_reaches_its_handler (self : Sync) (n : Net) :
  (exists ok : bool, res (run R self n) = Ret ok) /\
  critical_errors (emitted (run R self n)) = [].
Proof.
  split; [apply run_returns|].
  assert (Hc : critical_errors (emitted (connect_odoo R self n)) = []).
  { unfold connect_odoo. unfold_monad.
    destruct (missing_vars self); run_step; [|reflexivity].
    destruct (xmlrpc R (version_call self) n) as [[v | e] n1]; run_step;
      [|reflexivity].
    destruct (py_get v _ _); run_step; [|reflexivity].
    destruct (xmlrpc R (authenticate_call self) n1) as [[uid | e] n2];
      run_step; [|reflexivity].
    destruct (truthy uid); reflexivity. }
  pose proof (run_shape R self n) as Hr. cbv zeta in Hr.
  destruct (connect_returns R self n) as (ok & self' & Hcr).
  rewrite Hcr in Hr. destruct ok.
  - destruct Hr as (_ & _ & Hr). rewrite Hr.
    pose proof (sync_stock_handlers self'
                  (net_after (connect_odoo R self n))) as (_ & Hs).
    unfold critical_errors in *. rewrite flat_map_app, Hc, Hs. reflexivity.
  - destruct Hr as (_ & _ & Hr). rewrite Hr. exact Hc.
Qed.

(** X9.  When [search_read] answers a list whose first element is a
    record, the per-item fetch reads that record only: it returns its
    [id], [name] and [barcode] with [qty_available], or 0 when the record
    has no [qty_available]; when [id], [name] or [barcode] is absent it
    returns no record.  The remaining elements of the list play no
    part. *)
Theorem X9_fetch_reads_the_first_record (self : Sync) (url barcode : string)
    (d : list (string * value)) (more : list value) (n n' : Net) :
  odoo_models self = Some url ->
  xmlrpc R (search_read_call self url barcode) n =
    (Ret (VList (VDict d :: more)), n') ->
  let r := get_product_stock_by_barcode R self barcode n in
  net_after r = n' /\
  res r =
    Ret match dict_lookup "id" d, dict_lookup "name" d,
              dict_lookup "barcode" d with
        | Some i, Some nm, Some bc =>
            Some (mk_info i nm bc
                    match dict_lookup "qty_available" d with
                    | Some q => q
                    | None => VInt 0
                    end)
        | _, _, _ => None
        end.
Proof.
  intros Hm Hc. cbv zeta.
  unfold get_product_stock_by_barcode. unfold_monad.
  rewrite Hm, Hc. run_step. cbn [truthy py_first py_getitem py_get].
  run_step.
  destruct (dict_lookup "id" d); run_step; [|split; reflexivity].
  destruct (dict_lookup "name" d); run_step; [|split; reflexivity].
  destruct (dict_lookup "barcode" d); run_step; [|split; reflexivity].
  destruct (dict_lookup "qty_available" d); run_step; split; reflexivity.
Qed.

(** A quantity that is no number makes no payload. *)
Lemma build_payload_not_numeric (q : value) :
  num_value q = None -> exists e, build_payload q = Raise e.
Proof.
  unfold build_payload.
  destruct q as [| b | z | f | s | l | d]; cbn; try discriminate; eauto.
  - destruct f; cbn; try discriminate; eauto.
  - destruct (int_of_string s); eauto.
Qed.

(** X10.  A payload is built exactly for the numeric quantities (a
    boolean, an integer, a finite double).  For any other quantity
    ([None], a string, a list, a dictionary, a NaN, an infinity) the push
    sends no request, leaves the outside as it was, returns false and is
    reported failed. *)
Theorem X10_payload_exists_iff_numeric (q : value) :
  ((exists p, build_payload q = Ret p) <-> (exists v, num_value q = Some v)) /\
  (num_value q = None ->
   forall (self : Sync) (product_id : Z) (product_name : value) (n : Net),
     let r := update_woocommerce_stock R self product_id q product_name n in
     res r = Ret false /\ net_after r = n /\ sent (emitted r) = [] /\
     push_failures (emitted r) = [product_id]).
Proof.
  split.
  - split.
    + intros (p & Hp). destruct (num_value q) as [v|] eqn:Hv; [eauto|].
      destruct (build_payload_not_numeric q Hv) as (e & He).
      rewrite He in Hp. discriminate Hp.
    + intros (v & Hv). rewrite (build_payload_numeric q v Hv). eauto.
  - intros Hv self product_id product_name n. cbv zeta.
    destruct (build_payload_not_numeric q Hv) as (e & He).
    unfold update_woocommerce_stock. unfold_monad. rewrite He. run_step.
    destruct e; try destruct (status =? 404); repeat split.
Qed.

(** X11.  Whatever the quantity, a payload that is built has
    [manage_stock] true, says "instock" whenever its [stock_quantity] is
    positive, and has a [stock_quantity] of at most 0 whenever it says
    "outofstock". *)
Theorem X11_payload_flag_covers_the_quantity (q : value) (p : payload) :
  build_payload q = Ret p ->
  manage_stock p = true /\
  (0 < stock_quantity p -> stock_status p = instock) /\
  (stock_status p = outofstock -> stock_quantity p <= 0).
Proof.
  unfold build_payload.
  destruct q as [| b | z | f | s | l | d]; cbn; try discriminate.
  - intros H. injection H as <-. destruct b; cbn; repeat split;
      try discriminate; lia.
  - intros H. injection H as <-. cbn.
    destruct (Z.ltb_spec 0 z); repeat split; intros; try discriminate; lia.
  - destruct f as [sg | sg | | neg m e]; cbn; try discriminate.
    + intros H. injection H as <-. cbn. repeat split; lia.
    + assert (Ha : 0 <= (if 0 <=? e then Z.shiftl (Z.pos m) e
                         else Z.shiftr (Z.pos m) (- e))).
      { destruct (0 <=? e); [apply Z.shiftl_nonneg | apply Z.shiftr_nonneg];
          lia. }
      destruct neg; intros H; injection H as <-; cbn [manage_stock
        stock_quantity stock_status]; repeat split; try discriminate; lia.
  - destruct (int_of_string s); discriminate.
Qed.

(** X12.  For a numeric quantity denoting [v], the [stock_quantity] sent
    lies between 0 and [v] and less than one away from [v]: for [v] at
    least 0 it is the largest integer not above [v], for [v] at most 0
    the smallest integer not below [v]. *)
Theorem X12_payload_quantity_is_within_one (q : value) (v : Q) (p : payload) :
  num_value q = Some v -> build_payload q = Ret p ->
  ((0 <= v)%Q ->
   (inject_Z (stock_quantity p) <= v)%Q /\
   (v < inject_Z (stock_quantity p + 1))%Q) /\
  ((v <= 0)%Q ->
   (v <= inject_Z (stock_quantity p))%Q /\
   (inject_Z (stock_quantity p - 1) < v)%Q).
Proof.
  intros Hv Hp. rewrite (build_payload_numeric q v Hv) in Hp.
  injection Hp as <-. cbn [stock_quantity]. apply truncate_brackets.
Qed.

(** X13.  A push whose quantity makes a payload sends exactly one
    request and leaves the outside as that request left it.  When the
    shop answers a status, the push returns true and reports the update
    unless the status is from 400 to 599, in which case it returns false
    and reports [404] as "not found" and any other as an HTTP error with
    the status; a status below 400, a redirection included, is a
    success. *)
Theorem X13_push_outcome_by_status (self : Sync) (product_id : Z)
    (q product_name : value) (body : payload) (status : Z) (n n' : Net) :
  build_payload q = Ret body ->
  http_put R (mk_put (product_url self product_id) (credentials self)
                body 20) n = (Ret status, n') ->
  update_woocommerce_stock R self product_id q product_name n =
    mk_result
      (Ret (negb ((400 <=? status) && (status <? 600))))
      n'
      [Sent (mk_put (product_url self product_id) (credentials self) body 20);
       Printed (if (400 <=? status) && (status <? 600)
                then if status =? 404 then PushNotFound product_id
                     else PushHttpError product_id status
                else PushOk product_id product_name q)].
Proof.
  intros Hb Hput. unfold update_woocommerce_stock. unfold_monad.
  rewrite Hb. run_step. rewrite Hput. run_step.
  unfold raise_for_status.
  destruct ((400 <=? status) && (status <? 600)); run_step;
    [destruct (status =? 404)|]; reflexivity.
Qed.

(** Every record the fetch loop returns was there before or comes from
    an entry it went through, with that entry's sink identifier read by
    [int]. *)
Lemma fetch_loop_values (self : Sync) (items : list (string * value)) :
  forall (acc ps : list (string * stock_entry)) (n : Net) (b : string)
         (e : stock_entry),
    res (fetch_loop R self items acc n) = Ret ps -> In (b, e) ps ->
    In (b, e) acc \/
    exists wc, In (b, wc) items /\ py_int wc = Ret (wc_id e).
Proof.
  induction items as [|[k wc] rest IH]; intros acc ps n b e.
  - cbn. intros H. injection H as <-. tauto.
  - rewrite fetch_loop_cons. cbv zeta.
    destruct (res (get_product_stock_by_barcode R self k n)) as [[p|]|x];
      [| |discriminate].
    + destruct (py_int wc) as [i|x] eqn:Hi; [|discriminate]. run_step.
      intros Hr Hin. destruct (IH _ _ _ _ _ Hr Hin) as [H | (wc' & H1 & H2)].
      * apply dict_set_In in H. destruct H as [(-> & ->) | H]; [|tauto].
        right. exists wc. split; [left; reflexivity | exact Hi].
      * right. exists wc'. split; [right; exact H1 | exact H2].
    + run_step. intros Hr Hin.
      destruct (IH _ _ _ _ _ Hr Hin) as [H | (wc' & H1 & H2)]; [tauto|].
      right. exists wc'. split; [right; exact H1 | exact H2].
Qed.

(** The fetch loop returns at most one record more per entry. *)
Lemma fetch_loop_length (self : Sync) (items : list (string * value)) :
  forall (acc ps : list (string * stock_entry)) (n : Net),
    res (fetch_loop R self items acc n) = Ret ps ->
    (List.length ps <= List.length acc + List.length items)%nat.
Proof.
  induction items as [|[k wc] rest IH]; intros acc ps n.
  - cbn. intros H. injection H as <-. lia.
  - rewrite fetch_loop_cons. cbv zeta.
    destruct (res (get_product_stock_by_barcode R self k n)) as [[p|]|x];
      [| |discriminate].
    + destruct (py_int wc) as [i|x]; [|discriminate]. run_step.
      intros Hr. apply IH in Hr.
      pose proof (dict_set_length k (mk_entry (info_name p) (qty_available p) i)
                    acc).
      cbn [List.length]. lia.
    + run_step. intros Hr. apply IH in Hr. cbn [List.length]. lia.
Qed.

Lemma put_of_length (self : Sync) (ps : list (string * stock_entry)) :
  (List.length (flat_map (put_of self) ps) <= List.length ps)%nat.
Proof.
  induction ps as [|bd ps IH]; cbn [flat_map List.length]; [lia|].
  rewrite length_app. unfold put_of at 1.
  destruct (build_payload (qty (snd bd))); cbn [List.length]; lia.
Qed.

(** What [sync_stock] pushes, from what the fetch phase returns. *)
Lemma sync_stock_pushes (self : Sync) (n : Net) :
  let r := sync_stock R self n in
  (sent (emitted r) = [] /\ push_successes (emitted r) = [] /\
   push_failures (emitted r) = []) \/
  exists ps, res (get_all_products_stock R self n) = Ret ps /\
             sent (emitted r) = flat_map (put_of self) ps /\
             (List.length (push_successes (emitted r))
              + List.length (push_failures (emitted r)) = List.length ps)%nat.
Proof.
  pose proof (sync_stock_shape R self n) as Hs. cbv zeta in *.
  destruct Hs as (_ & _ & Hs).
  destruct (res (get_all_products_stock R self n)) as [[|bd ps] | x].
  - left. destruct Hs as (_ & S1 & _ & S3 & S4 & _). tauto.
  - right. exists (bd :: ps). destruct Hs as (_ & _ & S2 & _ & _ & S5). tauto.
  - left. destruct Hs as (_ & S1 & _ & S3 & S4 & _). tauto.
Qed.

(** X14.  Every request [sync_stock] sends goes to the product URL of a
    sink identifier of the mapping, read by [int] from the value of one
    of its entries, with the instance's credentials, a timeout of 20
    and [manage_stock] true. *)
Theorem X14_requests_target_mapped_products (self : Sync)
    (d : list (string * value)) (n : Net) (r : put_request) :
  product_mapping self = VDict d ->
  In r (sent (emitted (sync_stock R self n))) ->
  put_timeout r = 20 /\ put_credentials r = credentials self /\
  manage_stock (put_json r) = true /\
  exists b wc z, In (b, wc) d /\ py_int wc = Ret z /\
                 put_url r = product_url self z.
Proof.
  intros Hd Hin.
  destruct (sync_stock_pushes self n) as [(S0 & _) | (ps & Hf & Hs & _)];
    cbv zeta in *.
  { rewrite S0 in Hin. destruct Hin. }
  rewrite Hs in Hin. apply in_flat_map in Hin.
  destruct Hin as ((b & e) & Hps & Hr).
  unfold put_of in Hr. cbn [snd] in Hr.
  destruct (build_payload (qty e)) as [body | x] eqn:Hb; [|destruct Hr].
  destruct Hr as [<- | []]. cbn [put_timeout put_credentials put_json put_url].
  repeat split.
  - revert Hb. unfold build_payload.
    destruct (py_int (qty e)); [|discriminate].
    destruct (py_gt_zero (qty e)); [|discriminate].
    intros H. injection H as <-. reflexivity.
  - destruct (get_all_dict R self d n Hd) as (G & _). rewrite G in Hf.
    destruct (fetch_loop_values self d [] ps n b e Hf Hps)
      as [[] | (wc & H1 & H2)].
    exists b, wc, (wc_id e). repeat split; assumption.
Qed.

(** X15.  [sync_stock] never pushes more than the mapping holds: the
    pushes reported done and failed together, and the requests sent, are
    at most as many as the entries of the mapping. *)
Theorem X15_pushes_bounded_by_the_mapping (self : Sync)
    (d : list (string * value)) (n : Net) :
  product_mapping self = VDict d ->
  let r := sync_stock R self n in
  (List.length (push_successes (emitted r))
   + List.length (push_failures (emitted r)) <= List.length d)%nat /\
  (List.length (sent (emitted r)) <= List.length d)%nat.
Proof.
  intros Hd. cbv zeta.
  destruct (sync_stock_pushes self n) as [(S0 & S1 & S2) | (ps & Hf & Hs & Hc)];
    cbv zeta in *.
  { rewrite S0, S1, S2. cbn. lia. }
  destruct (get_all_dict R self d n Hd) as (G & _). rewrite G in Hf.
  pose proof (fetch_loop_length self d [] ps n Hf) as Hl. cbn in Hl.
  pose proof (put_of_length self ps). rewrite Hs, Hc. lia.
Qed.


(** X17.  [sync_stock] works in two phases: what it does splits into a
    first part that sends no request to the shop and a second part that
    makes no call to the Source.  No product is asked for once the first
    request is sent. *)
Theorem X17_fetching_precedes_pushing (self : Sync) (n : Net) :
  exists fetching pushing,
    emitted (sync_stock R self n) = (fetching ++ pushing)%list /\
    sent fetching = [] /\ called pushing = [].
Proof.
  pose proof (get_all_silent R self n) as (S1 & _).
  unfold sync_stock. unfold_monad.
  destruct (get_all_products_stock R self n) as [[ps | x] n' ev];
    cbn [emitted] in S1; run_step.
  - destruct ps as [|bd ps]; run_step.
    + exists (Printed StartingSync :: ev), [Printed NoProducts].
      repeat split. unfold sent in *. cbn [flat_map app]. exact S1.
    + pose proof (push_loop_shape R self (bd :: ps) 0 0 n') as Hp.
      cbv zeta in Hp. destruct Hp as (P0 & _ & _ & _ & P4 & _).
      destruct (push_loop R self (bd :: ps) 0 0 n') as [o n'' pev].
      cbn [res emitted] in P0, P4. subst o. run_step.
      destruct (0 <? _)%nat; run_step;
        (eexists (Printed StartingSync :: ev), _; split; [reflexivity|];
         split; [unfold sent in *; cbn [flat_map app]; exact S1|];
         unfold called in *; cbn [flat_map app]; rewrite flat_map_app, P4;
         reflexivity).
  - exists (Printed StartingSync :: ev),
      [Printed (SyncFailed x); Printed (Traceback x)].
    repeat split. unfold sent in *. cbn [flat_map app]. exact S1.
Qed.

(** X18.  A mapping that is a JSON array or a JSON string has a length
    but no [items]: [sync_stock] fails at once with [AttributeError],
    returns false, and neither asks the Source for anything nor sends
    any request. *)
Theorem X18_array_or_string_mapping_fails_the_sync (self : Sync) (n : Net) :
  (exists l, product_mapping self = VList l) \/
  (exists s, product_mapping self = VStr s) ->
  let r := sync_stock R self n in
  res r = Ret false /\ net_after r = n /\
  sync_failures (emitted r) = [AttributeError] /\
  called (emitted r) = [] /\ sent (emitted r) = [].
Proof.
  intros [(l & Hm) | (s & Hm)]; cbv zeta;
    unfold sync_stock, get_all_products_stock; unfold_monad; rewrite Hm;
    repeat split.
Qed.

End Items.

(** ** The further properties on the scripted Source and Sink *)



(** An empty environment. *)
Lemma X6_witness :
  exit_code (main erp_and_shop (env_of []) (Parsed mapping_A) 0%nat) = 1 /\
  called (emitted (main erp_and_shop (env_of []) (Parsed mapping_A) 0%nat))
    = [].
Proof.
  pose proof (X6_missing_environment_stops_before_any_call erp_and_shop
                (env_of []) (Parsed mapping_A) 0%nat
                {| wc_url := None; wc_consumer_key := None;
                   wc_consumer_secret := None; odoo_url := None;
                   odoo_db := None; odoo_username := None;
                   odoo_password := None; odoo_location_id := 8;
                   product_mapping := mapping_A; odoo_uid := VNone;
                   odoo_models := None |}
                eq_refl (or_introl eq_refl)) as H.
  cbv zeta in H. destruct H as (_ & H1 & _ & H2 & _).
  split; [exact H1 | exact H2].
Defined.

(** A connection that succeeds. *)
Lemma X7_witness :
  sent (emitted (connect_odoo erp_and_shop (fresh_sync mapping_A) 0%nat)) = []
  /\ called (emitted (connect_odoo erp_and_shop (fresh_sync mapping_A) 0%nat))
     = [version_call (fresh_sync mapping_A);
        authenticate_call (fresh_sync mapping_A)].
Proof.
  pose proof (X7_connect_sets_the_session_only_on_success erp_and_shop
                (fresh_sync mapping_A) (connected_sync mapping_A 8) true
                0%nat eq_refl) as H.
  cbv zeta in H. destruct H as (H1 & _ & H2).
  split; [exact H1|].
  destruct (H2 eq_refl) as (v & uid & n1 & _ & _ & _ & _ & _ & _ & H3).
  exact H3.
Defined.

(** Rejected credentials. *)
Lemma X8_witness :
  res (run erp_rejecting (fresh_sync mapping_two) 0%nat) = Ret false /\
  sent (emitted (run erp_rejecting (fresh_sync mapping_two) 0%nat)) = [].
Proof.
  pose proof (X8_failed_connection_ends_the_run erp_rejecting
                (fresh_sync mapping_two) (fresh_sync mapping_two) 0%nat
                eq_refl) as H.
  cbv zeta in H. destruct H as (H1 & _ & H2 & _).
  split; [exact H1 | exact H2].
Defined.

(** The record of the widget. *)
Lemma X9_witness :
  res (get_product_stock_by_barcode erp_and_shop (connected_sync mapping_A 8)
         "ABC123" 0%nat) =
    Ret (Some (mk_info (VInt 7) (VStr "Widget") (VStr "ABC123")
                 (VFloat twelve))).
Proof.
  apply (proj2 (X9_fetch_reads_the_first_record erp_and_shop
                  (connected_sync mapping_A 8)
                  "https://erp.example/xmlrpc/2/object" "ABC123"
                  [("id", VInt 7); ("name", VStr "Widget");
                   ("barcode", VStr "ABC123");
                   ("qty_available", VFloat twelve)] [] 0%nat 1%nat
                  eq_refl eq_refl)).
Defined.

(** A quantity that is [None]. *)
Lemma X10_witness :
  res (update_woocommerce_stock erp_and_shop (connected_sync mapping_A 8)
         55 VNone (VStr "Widget") 0%nat) = Ret false /\
  net_after (update_woocommerce_stock erp_and_shop
               (connected_sync mapping_A 8) 55 VNone (VStr "Widget") 0%nat)
    = 0%nat.
Proof.
  pose proof (proj2 (X10_payload_exists_iff_numeric erp_and_shop VNone)
                eq_refl (connected_sync mapping_A 8) 55 (VStr "Widget")
                0%nat) as H.
  cbv zeta in H. destruct H as (H1 & H2 & _). split; [exact H1 | exact H2].
Defined.

Lemma X11_witness :
  stock_status (mk_payload 5 true instock) = instock.
Proof.
  apply (proj1 (proj2 (X11_payload_flag_covers_the_quantity (VInt 5)
                         (mk_payload 5 true instock) eq_refl))).
  cbn. lia.
Defined.

(** 2.75 again: 2 <= 11/4 < 3. *)
Lemma X12_witness :
  (inject_Z 2 <= 11 # 4)%Q /\ (11 # 4 < inject_Z 3)%Q.
Proof.
  apply (proj1 (X12_payload_quantity_is_within_one
                  (VFloat (S754_finite false 11 (-2))) (11 # 4)
                  (mk_payload 2 true instock) eq_refl eq_refl)).
  unfold Qle. cbn. lia.
Defined.

(** The shop accepts the update of product 55. *)
Lemma X13_witness :
  res (update_woocommerce_stock erp_and_shop (connected_sync mapping_A 8)
         55 (VInt 3) (VStr "Widget") 0%nat) = Ret true.
Proof.
  rewrite (X13_push_outcome_by_status erp_and_shop
             (connected_sync mapping_A 8) 55 (VInt 3) (VStr "Widget")
             (mk_payload 3 true instock) 200 0%nat 1%nat eq_refl eq_refl).
  reflexivity.
Defined.

Lemma X14_witness :
  put_timeout
    (mk_put "https://shop.example/wp-json/wc/v3/products/55" "ck:cs"
       (mk_payload 12 true instock) 20) = 20.
Proof.
  refine (proj1 (X14_requests_target_mapped_products erp_and_shop
                   (connected_sync mapping_A 8) [("ABC123", VStr "55")]
                   2%nat
                   (mk_put "https://shop.example/wp-json/wc/v3/products/55"
                      "ck:cs" (mk_payload 12 true instock) 20)
                   eq_refl _)).
  vm_compute. left. reflexivity.
Defined.

Lemma X15_witness :
  (List.length (sent (emitted (sync_stock erp_and_shop
                                 (connected_sync mapping_two 8) 2%nat)))
   <= 2)%nat.
Proof.
  apply (proj2 (X15_pushes_bounded_by_the_mapping erp_and_shop
                  (connected_sync mapping_two 8)
                  [("ABC123", VStr "55"); ("XYZ789", VInt 56)] 2%nat
                  eq_refl)).
Defined.


(** A mapping file holding [[]]. *)
Lemma X18_witness :
  res (sync_stock erp_and_shop (connected_sync (VList []) 8) 2%nat) =
    Ret false.
Proof.
  apply (X18_array_or_string_mapping_fails_the_sync erp_and_shop
           (connected_sync (VList []) 8) 2%nat
           (or_introl (ex_intro _ [] eq_refl))).
Defined.
